(* Verification of note_renumber.py (renumbering of Standard Ebooks endnotes).

   The markup service (BeautifulSoup over lxml, format_xhtml) is modelled at
   the level of trees: a document is the list of its top-level nodes, an
   element carries its tag, its attribute dictionary and its children.  The
   file system maps a path to what exists there: nothing, an entry that
   cannot be opened for reading, or the tree of a readable document.
   Serialising and re-parsing a written tree gives the same tree back.

   Trees are values.  The source's Notes hold the very node objects of the
   endnotes tree; as long as no list item lies inside the text of another
   one, no two Notes share a node and the values here behave as those
   objects do.  When one does, the source's passes over the Notes see the
   nested nodes once per Note holding them, as last mutated, and the
   rebuild moves them; the statements below that depend on it assume no
   such nesting. *)

From Stdlib Require Import List String Ascii Bool Arith Lia.
From Stdlib Require Import Sorting.Permutation Sorting.Sorted.
Import ListNotations.
Set Warnings "-register-all".
Open Scope string_scope.
Open Scope list_scope.

(* ------------------------------------------------------------------ *)
(** * Markup trees *)

Definition attrs := list (string * string).

Inductive node : Type :=
| Text (s : string)
| Elem (tag : string) (a : attrs) (children : list node).

Definition doc := list node.

(** Induction over trees, with an induction hypothesis for every child. *)
Fixpoint node_ind' (P : node -> Prop)
  (HT : forall s, P (Text s))
  (HE : forall t a ch, Forall P ch -> P (Elem t a ch))
  (n : node) {struct n} : P n :=
  match n with
  | Text s => HT s
  | Elem t a ch =>
      HE t a ch
        ((fix go (l : list node) : Forall P l :=
            match l with
            | [] => Forall_nil P
            | x :: xs => Forall_cons x (node_ind' P HT HE x) (go xs)
            end) ch)
  end.

(** [tag.get(k)]: the value stored under [k], if any. *)
Fixpoint lookup_attr (a : attrs) (k : string) : option string :=
  match a with
  | [] => None
  | (k', v) :: r => if String.eqb k k' then Some v else lookup_attr r k
  end.

(** [tag.get(k) or ""] *)
Definition get_attr (a : attrs) (k : string) : string :=
  match lookup_attr a k with Some v => v | None => "" end.

(** [tag[k] = v]: a dict assignment, replacing the value in place or adding
    the key at the end. *)
Fixpoint set_attr (k v : string) (a : attrs) : attrs :=
  match a with
  | [] => [(k, v)]
  | (k', v') :: r => if String.eqb k k' then (k', v) :: r else (k', v') :: set_attr k v r
  end.

(** [find_all] with a predicate on elements: the matching nodes among [l]
    and all their descendants, in document (pre-)order. *)
Fixpoint find_all_node (p : string -> attrs -> bool) (n : node) : list node :=
  match n with
  | Text _ => []
  | Elem t a ch =>
      (if p t a then [Elem t a ch] else [])
        ++ flat_map (find_all_node p) ch
  end.

Definition find_all (p : string -> attrs -> bool) (l : list node) : list node :=
  flat_map (find_all_node p) l.

Definition is_tag (name : string) (t : string) (_ : attrs) : bool := String.eqb t name.

(** [soup.find(name)]: the first of them. *)
Definition find_first (name : string) (l : list node) : option node :=
  hd_error (find_all (is_tag name) l).

(* ------------------------------------------------------------------ *)
(** * Strings *)

(** [str(n)] / ["{:d}".format(n)] for a non-negative int. *)
Fixpoint digits_aux (fuel n : nat) (acc : string) : string :=
  match fuel with
  | 0 => acc
  | S f =>
      let acc' := String (ascii_of_nat (48 + Nat.modulo n 10)) acc in
      if Nat.ltb n 10 then acc' else digits_aux f (Nat.div n 10) acc'
  end.

Definition str_of_nat (n : nat) : string := digits_aux (S n) n "".

(** The part of [s] after its first '#', if it has one. *)
Fixpoint after_hash (s : string) : option string :=
  match s with
  | EmptyString => None
  | String c r => if Ascii.eqb c "#"%char then Some r else after_hash r
  end.

(** [extract_anchor] *)
Definition extract_anchor (href : string) : string :=
  match after_hash href with
  | Some r => r
  | None => ""
  end.

Definition is_empty (s : string) : bool := String.eqb s "".

(** [os.path.join(a, b)] (posixpath). *)
Definition path_join (a b : string) : string :=
  match b with
  | String "/"%char _ => b
  | _ =>
      if is_empty a then b
      else match get (String.length a - 1) a with
           | Some "/"%char => a ++ b
           | _ => a ++ "/" ++ b
           end
  end.

(** [s in l] for a list of strings. *)
Definition mem_string (s : string) (l : list string) : bool :=
  existsb (String.eqb s) l.

(** [sub in s] for strings. *)
Fixpoint contains (sub s : string) : bool :=
  if String.prefix sub s then true
  else match s with
       | EmptyString => false
       | String _ r => contains sub r
       end.

(* ------------------------------------------------------------------ *)
(** * ListNote *)

Record ListNote := mkNote {
  number : nat;
  anchor : string;
  contents : list node;
  back_link : string;
  source_file : string;
  matched : bool
}.

(** [ListNote()] with its class defaults. *)
Definition new_note : ListNote := mkNote 0 "" [] "" "" false.

Definition set_number (n : nat) (x : ListNote) : ListNote :=
  mkNote n x.(anchor) x.(contents) x.(back_link) x.(source_file) x.(matched).
Definition set_anchor (s : string) (x : ListNote) : ListNote :=
  mkNote x.(number) s x.(contents) x.(back_link) x.(source_file) x.(matched).
Definition set_contents (c : list node) (x : ListNote) : ListNote :=
  mkNote x.(number) x.(anchor) c x.(back_link) x.(source_file) x.(matched).
Definition set_back_link (s : string) (x : ListNote) : ListNote :=
  mkNote x.(number) x.(anchor) x.(contents) s x.(source_file) x.(matched).
Definition set_source_file (s : string) (x : ListNote) : ListNote :=
  mkNote x.(number) x.(anchor) x.(contents) x.(back_link) s x.(matched).
Definition set_matched (b : bool) (x : ListNote) : ListNote :=
  mkNote x.(number) x.(anchor) x.(contents) x.(back_link) x.(source_file) b.

(** [matches[0].f = ...]: update the first element satisfying [p]. *)
Fixpoint update_first {A} (p : A -> bool) (f : A -> A) (l : list A) : list A :=
  match l with
  | [] => []
  | x :: r => if p x then f x :: r else x :: update_first p f r
  end.

(** Update the element at index [i] (nothing happens out of range). *)
Fixpoint update_nth {A} (i : nat) (f : A -> A) (l : list A) {struct l} : list A :=
  match l, i with
  | [], _ => []
  | x :: r, 0 => f x :: r
  | x :: r, S j => x :: update_nth j f r
  end.

(* ------------------------------------------------------------------ *)
(** * Run state

    [cur] is the [current_note_number] threaded through [process_file] and
    [process_endnotes_file]; [notes] the shared [endnotes] list, whose
    [ListNote] objects are mutated in place; [changed] the global
    [notes_changed]; [rewrite] the [needs_rewrite] flag of the file being
    processed; [log] what has been printed. *)

Record St := mkSt {
  cur : nat;
  notes : list ListNote;
  changed : nat;
  rewrite : bool;
  log : list string
}.

Definition set_cur (n : nat) (st : St) : St :=
  mkSt n st.(notes) st.(changed) st.(rewrite) st.(log).
Definition set_notes (ns : list ListNote) (st : St) : St :=
  mkSt st.(cur) ns st.(changed) st.(rewrite) st.(log).
Definition set_rewrite (st : St) : St :=
  mkSt st.(cur) st.(notes) st.(changed) true st.(log).
Definition incr_changed (st : St) : St :=
  mkSt st.(cur) st.(notes) (S st.(changed)) st.(rewrite) st.(log).
Definition print (msg : string) (st : St) : St :=
  mkSt st.(cur) st.(notes) st.(changed) st.(rewrite) (st.(log) ++ [msg]).

(* ------------------------------------------------------------------ *)
(** * One note reference *)

Definition note_anchor (n : nat) : string := "note-" ++ str_of_nat n.

(** [old_anchor]: [href = link.get("href") or ""; if href: extract_anchor(href)] *)
Definition old_anchor_of (a : attrs) : string :=
  let href := get_attr a "href" in
  if is_empty href then "" else extract_anchor href.

(** [list(filter(lambda x: x.anchor == old_anchor, endnotes))] *)
Definition matches_of (old : string) (ns : list ListNote) : list ListNote :=
  filter (fun x => String.eqb x.(anchor) old) ns.

(** What happens to the children of a link: kept, or replaced
    ([link.string = ...] or [link.clear()]). *)
Inductive action := Keep | SetChildren (l : list node).

(** [link["href"] = 'endnotes.xhtml#' + new_anchor; link["id"] = 'noteref-N'] *)
Definition renumber_link (n : nat) (a : attrs) : attrs :=
  set_attr "id" ("noteref-" ++ str_of_nat n)
    (set_attr "href" ("endnotes.xhtml#" ++ note_anchor n) a).

Definition link_step := attrs -> St -> attrs * action * St.

(** The body of the loop over the links of [process_file]. *)
Definition body_step (de_orphan : bool) (file_name file_path : string) : link_step :=
  fun a st =>
  let old := old_anchor_of a in
  let n := st.(cur) in
  let new := note_anchor n in
  let '(a1, act1, st1) :=
    if negb (String.eqb new old) then
      (renumber_link n a, SetChildren [Text (str_of_nat n)],
       set_rewrite (incr_changed
         (print ("Changed " ++ old ++ " to " ++ new ++ " in " ++ file_path) st)))
    else (a, Keep, st) in
  let '(act2, st2) :=
    match List.length (matches_of old st1.(notes)) with
    | 0 =>
        let st' := print ("Couldn't find endnote with anchor " ++ old) st1 in
        if de_orphan
        then (SetChildren [], set_rewrite (print "Removing orphan note ref in text" st'))
        else (act1, st')
    | 1 =>
        (act1, set_notes
                 (update_first (fun x => String.eqb x.(anchor) old)
                    (fun x => set_source_file file_name (set_matched true (set_number n x)))
                    st1.(notes)) st1)
    | _ => (act1, print ("Duplicate anchors in endnotes file for anchor " ++ old) st1)
    end in
  (a1, act2, set_cur (S n) st2).

(** The body of the loop over the links of [process_endnotes_file].  As in
    the source, the correlation and the increment of the counter sit inside
    [if new_anchor != old_anchor:].  Its [needs_rewrite] is a local that is
    never read, and is left out. *)
Definition endnotes_step (de_orphan : bool) : link_step :=
  fun a st =>
  let old := old_anchor_of a in
  let n := st.(cur) in
  let new := note_anchor n in
  if negb (String.eqb new old) then
    let st1 := incr_changed (print ("Changed " ++ old ++ " to " ++ new ++ " in endnotes.xhtml") st) in
    let act1 := SetChildren [Text (str_of_nat n)] in
    let '(act2, st2) :=
      match List.length (matches_of old st1.(notes)) with
      | 0 =>
          let st' := print ("Couldn't find endnote with anchor " ++ old) st1 in
          if de_orphan
          then (SetChildren [], print "Removing orphan note ref in text" st')
          else (act1, st')
      | 1 =>
          (act1, set_notes
                   (update_first (fun x => String.eqb x.(anchor) old)
                      (fun x => set_anchor new (set_source_file "endnotes.xhtml"
                                  (set_matched true (set_number n x))))
                      st1.(notes)) st1)
      | _ => (act1, print ("Duplicate anchors in endnotes file for anchor " ++ old) st1)
      end in
    (renumber_link n a, act2, set_cur (S n) st2)
  else (a, Keep, st).

(* ------------------------------------------------------------------ *)
(** * Walking the links of a tree

    [find_all("a")] lists the links in document order before any is
    processed; each noteref link is then processed in turn.  A link whose
    children were replaced keeps its old children out of the tree, but a
    link among them that was already listed is still processed. *)

Definition is_noteref (t : string) (a : attrs) : bool :=
  String.eqb t "a" && String.eqb (get_attr a "epub:type") "noteref".

Fixpoint proc_node (step : link_step) (n : node) (st : St) {struct n} : node * St :=
  match n with
  | Text s => (Text s, st)
  | Elem t a ch =>
      let '(a', act, st1) := if is_noteref t a then step a st else (a, Keep, st) in
      let '(ch', st2) :=
        (fix go (l : list node) (st : St) : list node * St :=
           match l with
           | [] => ([], st)
           | x :: xs =>
               let '(x', st') := proc_node step x st in
               let '(xs', st'') := go xs st' in
               (x' :: xs', st'')
           end) ch st1 in
      (Elem t a' (match act with Keep => ch' | SetChildren k => k end), st2)
  end.

Fixpoint proc_list (step : link_step) (l : list node) (st : St) : list node * St :=
  match l with
  | [] => ([], st)
  | x :: xs =>
      let '(x', st') := proc_node step x st in
      let '(xs', st'') := proc_list step xs st' in
      (x' :: xs', st'')
  end.



(* ------------------------------------------------------------------ *)
(** * Files *)

(** What a path holds on disk: an entry that exists but cannot be opened
    for reading (a directory, a file without read permission), or a
    readable document, given by its tree. *)
Inductive entry := Unreadable | Readable (d : doc).

(** Path -> entry stored there (None: nothing exists at the path).  Files
    are identified with their path strings (no links, case-sensitive
    names). *)
Definition FS := string -> option entry.

(** [open(file_path, 'r')] followed by [read()]: the tree read, if the open
    succeeds. *)
Definition read_file (fs : FS) (p : string) : option doc :=
  match fs p with
  | Some (Readable d) => Some d
  | _ => None
  end.

(** [open(p, "w")] and [write]: the path then holds the written document. *)
Definition write_file (p : string) (d : doc) (fs : FS) : FS :=
  fun q => if String.eqb q p then Some (Readable d) else fs q.

(** [gethtml] followed by [BeautifulSoup(_, "lxml")]: on a failed open the
    path is reported and the empty text is returned, whose tree is empty. *)
Definition gethtml (fs : FS) (file_path : string) : doc * list string :=
  match read_file fs file_path with
  | Some d => (d, [])
  | None => ([], [("Could not open " ++ file_path)%string])
  end.

(** [process_file]: the new state (its [cur] is the returned counter) and
    the file written back, if any. *)
Definition process_file (fs : FS) (text_path file_name : string) (de_orphan : bool)
    (st : St) : St * option (string * doc) :=
  let file_path := path_join text_path file_name in
  let '(xhtml, msgs) := gethtml fs file_path in
  let st0 := mkSt st.(cur) st.(notes) st.(changed) false (st.(log) ++ msgs) in
  let '(soup, st1) := proc_list (body_step de_orphan file_name file_path) xhtml st0 in
  (st1, if st1.(rewrite) then Some (file_path, soup) else None).

(* ------------------------------------------------------------------ *)
(** * process_endnotes_file *)

(** [for content in endnote.contents: if isinstance(content, Tag):
    links = content.find_all("a") ...]: the links below each element. *)
Definition proc_content (step : link_step) (c : node) (st : St) : node * St :=
  match c with
  | Text s => (Text s, st)
  | Elem t a ch => let '(ch', st') := proc_list step ch st in (Elem t a ch', st')
  end.

Fixpoint proc_contents (step : link_step) (l : list node) (st : St) : list node * St :=
  match l with
  | [] => ([], st)
  | c :: cs =>
      let '(c', st') := proc_content step c st in
      let '(cs', st'') := proc_contents step cs st' in
      (c' :: cs', st'')
  end.

(** One iteration of [for endnote in endnotes]: the links inside the
    note's contents are rewritten in place. *)
Definition endnote_at (de_orphan : bool) (st : St) (i : nat) : St :=
  match nth_error st.(notes) i with
  | None => st
  | Some e =>
      let '(cs, st1) := proc_contents (endnotes_step de_orphan) e.(contents) st in
      set_notes (update_nth i (set_contents cs) st1.(notes)) st1
  end.

(** The Notes' contents are values: a Note's text is processed from the
    value it was loaded with, and written back to that Note only. *)
Definition process_endnotes_file (de_orphan : bool) (st : St) : St :=
  fold_left (endnote_at de_orphan) (seq 0 (List.length st.(notes))) st.

(* ------------------------------------------------------------------ *)
(** * get_notes, get_content_files *)

Definition is_backlink_role (et : string) : bool :=
  String.eqb et "se:referrer" || String.eqb et "backlink".

(** The loop over [content.find_all("a")] in [get_notes]. *)
Definition backlink_scan (bl : string) (l : node) : string :=
  match l with
  | Elem _ la _ =>
      if is_backlink_role (get_attr la "epub:type") then
        let href := get_attr la "href" in
        if is_empty href then bl else href
      else bl
  | Text _ => bl
  end.

Definition note_of_item (item : node) : ListNote :=
  match item with
  | Elem _ a ch =>
      let bl := fold_left
                  (fun bl c => match c with
                               | Elem _ _ cch => fold_left backlink_scan (find_all (is_tag "a") cch) bl
                               | Text _ => bl
                               end) ch "" in
      mkNote 0 (get_attr a "id") ch bl "" false
  | Text _ => new_note
  end.

Definition children_of (n : node) : list node :=
  match n with Elem _ _ ch => ch | Text _ => [] end.

(** [get_notes]; None when there is no [ol] ([None.find_all] raises). *)
Definition get_notes (endnotes_soup : doc) : option (list ListNote) :=
  match find_first "ol" endnotes_soup with
  | None => None
  | Some ol => Some (map note_of_item (find_all (is_tag "li") (children_of ol)))
  end.

(** [get_content_files]; None when an itemref has no idref (KeyError). *)
Fixpoint idrefs (l : list node) : option (list string) :=
  match l with
  | [] => Some []
  | Elem _ a _ :: r =>
      match lookup_attr a "idref", idrefs r with
      | Some v, Some vs => Some (v :: vs)
      | _, _ => None
      end
  | Text _ :: r => idrefs r
  end.

Definition get_content_files (opf : doc) : option (list string) :=
  idrefs (find_all (is_tag "itemref") opf).

(* ------------------------------------------------------------------ *)
(** * recreate *)

(** [endnotes.sort(key=lambda enote: enote.number)]: a stable sort. *)
Fixpoint insert_by_number (x : ListNote) (l : list ListNote) : list ListNote :=
  match l with
  | [] => [x]
  | y :: r => if Nat.leb x.(number) y.(number) then x :: l else y :: insert_by_number x r
  end.

Fixpoint sort_by_number (l : list ListNote) : list ListNote :=
  match l with
  | [] => []
  | x :: r => insert_by_number x (sort_by_number r)
  end.

Definition is_backlink_substr (et : string) : bool :=
  contains "se:referrer" et || contains "backlink" et.

(** [link["href"] = target] for every return-to-text link below a node
    (the node itself included). *)
Fixpoint repoint_node (target : string) (n : node) : node :=
  match n with
  | Text s => Text s
  | Elem t a ch =>
      let a' := if String.eqb t "a" && is_backlink_substr (get_attr a "epub:type")
                   && negb (is_empty (get_attr a "href"))
                then set_attr "href" target a else a in
      Elem t a' (map (repoint_node target) ch)
  end.

(** [for link in content.find_all("a")]: the links strictly below a
    content fragment, which is itself left as it is. *)
Definition repoint_content (target : string) (c : node) : node :=
  match c with
  | Text s => Text s
  | Elem t a ch => Elem t a (map (repoint_node target) ch)
  end.

Definition li_attrs (n : nat) : attrs :=
  set_attr "epub:type" "endnote" (set_attr "id" ("note-" ++ str_of_nat n) []).

Definition make_li (e : ListNote) : node :=
  Elem "li" (li_attrs e.(number))
    (map (repoint_content (e.(source_file) ++ "#noteref-" ++ str_of_nat e.(number))) e.(contents)).

(** The items appended to the cleared [ol]. *)
Definition recreate_items (endnotes : list ListNote) : list node :=
  flat_map (fun e => if e.(matched) then [make_li e] else []) (sort_by_number endnotes).

(** Replace the children of the first [ol] of a tree. *)
Fixpoint set_ol_node (items : list node) (n : node) : node * bool :=
  match n with
  | Text s => (Text s, false)
  | Elem t a ch =>
      if String.eqb t "ol" then (Elem t a items, true)
      else
        let '(ch', found) :=
          (fix go (l : list node) : list node * bool :=
             match l with
             | [] => ([], false)
             | x :: xs =>
                 let '(x', f) := set_ol_node items x in
                 if f then (x' :: xs, true)
                 else let '(xs', f') := go xs in (x :: xs', f')
             end) ch in
        (Elem t a ch', found)
  end.

Fixpoint set_ol_list (items : list node) (l : list node) : list node * bool :=
  match l with
  | [] => ([], false)
  | x :: xs =>
      let '(x', f) := set_ol_node items x in
      if f then (x' :: xs, true)
      else let '(xs', f') := set_ol_list items xs in (x :: xs', f')
  end.

(** [recreate]: the rebuilt endnotes tree (None when [notes_soup.ol] is
    None, which makes [ol.clear()] raise). *)
Definition recreate (notes_soup : doc) (endnotes : list ListNote) : option doc :=
  let '(d, found) := set_ol_list (recreate_items endnotes) notes_soup in
  if found then Some d else None.

(* ------------------------------------------------------------------ *)
(** * main *)

Definition exclude_list : list string :=
  ["titlepage.xhtml"; "colophon.xhtml"; "uncopyright.xhtml"; "imprint.xhtml";
   "halftitle.xhtml"; "endnotes.xhtml"].

Record World := mkWorld {
  wfs : FS;          (* the files on disk *)
  wst : St;
  processed : nat;
  writes : list string  (* the paths written, in order *)
}.

(** The loop [for file_name in file_list] of [main]. *)
Fixpoint body_pass (text_path : string) (de_orphan : bool) (files : list string)
    (w : World) : World :=
  match files with
  | [] => w
  | f :: r =>
      if mem_string f exclude_list then body_pass text_path de_orphan r w
      else
        let st := print ("Processing " ++ f) w.(wst) in
        let '(st', wr) := process_file w.(wfs) text_path f de_orphan st in
        let st'' := print ("Endnotes processed so far: " ++ str_of_nat (st'.(cur) - 1)) st' in
        let w' := match wr with
                  | Some (p, d) => mkWorld (write_file p d w.(wfs)) st'' (S w.(processed)) (w.(writes) ++ [p])
                  | None => mkWorld w.(wfs) st'' (S w.(processed)) w.(writes)
                  end in
        body_pass text_path de_orphan r w'
  end.

Inductive outcome :=
| Exited (lg : list string)        (* exit(-1) *)
| Crashed                           (* an uncaught exception *)
| Finished (fs : FS) (ws : list string) (st : St).

Definition opf_path (rootpath : string) : string :=
  path_join (path_join (path_join rootpath "src") "epub") "content.opf".
Definition text_path_of (rootpath : string) : string :=
  path_join (path_join (path_join rootpath "src") "epub") "text".
Definition notes_path (rootpath : string) : string :=
  path_join (text_path_of rootpath) "endnotes.xhtml".

(** [os.path.exists]: something exists at the path, readable or not. *)
Definition exists_file (fs : FS) (p : string) : bool :=
  match fs p with Some _ => true | None => false end.

(** [main], run with [remove_orphans] as the [-r] flag. *)
Definition main (fs : FS) (rootpath : string) (remove_orphans : bool) : outcome :=
  let opfpath := opf_path rootpath in
  let textpath := text_path_of rootpath in
  let notespath := notes_path rootpath in
  if negb (exists_file fs opfpath) then
    Exited ["Error: this does not seem to be a Standard Ebooks root directory"]
  else if negb (exists_file fs notespath) then Exited ["Error: no endnotes file exists"]
  else
    let de_orphan := remove_orphans in
    let '(notes_soup, m1) := gethtml fs notespath in
    match get_notes notes_soup with
    | None => Crashed
    | Some endnotes =>
        let '(opf, m2) := gethtml fs opfpath in
        match get_content_files opf with
        | None => Crashed
        | Some file_list =>
            let w := body_pass textpath de_orphan file_list
                       (mkWorld fs (mkSt 1 endnotes 0 false (m1 ++ m2)) 0 []) in
            let current_num := w.(wst).(cur) in
            let st := process_endnotes_file de_orphan w.(wst) in
            if Nat.eqb w.(processed) 0 then
              Finished w.(wfs) w.(writes)
                (print "No files processed. Did you update manifest and order the spine?" st)
            else
              let st := print ("Found " ++ str_of_nat (current_num - 1) ++ " endnotes.") st in
              if Nat.ltb 0 st.(changed) then
                let st := print ("Changed " ++ str_of_nat st.(changed) ++ " endnotes") st in
                match recreate notes_soup st.(notes) with
                | None => Crashed
                | Some d => Finished (write_file notespath d w.(wfs)) (w.(writes) ++ [notespath]) st
                end
              else Finished w.(wfs) w.(writes) (print "No changes made" st)
        end
    end.

(* ------------------------------------------------------------------ *)
(** * Auxiliary notions for the proofs *)

Definition assign_body (file_name : string) (n : nat) (x : ListNote) : ListNote :=
  set_source_file file_name (set_matched true (set_number n x)).

Definition assign_self (new : string) (n : nat) (x : ListNote) : ListNote :=
  set_anchor new (set_source_file "endnotes.xhtml" (set_matched true (set_number n x))).

(** Between two states of the body-file pass, a Note keeps its anchor,
    contents and back-link; it is either untouched or re-assigned its
    number, [matched = true] and a source file, and then it is the only
    Note carrying its anchor. *)
Definition note_frame (st st' : St) : Prop :=
  map anchor st'.(notes) = map anchor st.(notes) /\
  forall i x, nth_error st.(notes) i = Some x ->
    exists y, nth_error st'.(notes) i = Some y /\
      (y = x \/
       (List.length (matches_of x.(anchor) st.(notes)) = 1 /\
        exists n s, y = mkNote n x.(anchor) x.(contents) x.(back_link) s true)).

(** Every matched Note carries a number below [c]. *)
Definition numbers_below (c : nat) (ns : list ListNote) : Prop :=
  Forall (fun x => x.(matched) = true -> x.(number) < c) ns.

(** The invariant of both passes behind the uniqueness of numbers. *)
Definition numbering_inv (st : St) : Prop :=
  numbers_below st.(cur) st.(notes) /\ NoDup (map number (filter matched st.(notes))).

Definition inv_rel (s s' : St) : Prop := numbering_inv s -> numbering_inv s'.

(* ------------------------------------------------------------------ *)
(** * Sample inputs *)

Definition noteref_link (href text : string) : node :=
  Elem "a" [("href", href); ("epub:type", "noteref")] [Text text].

Definition list_item (id : string) (c : list node) : node := Elem "li" [("id", id)] c.

(** endnotes.xhtml: note [a] cites note [c], note [b] cites note [d]. *)
Definition ex_endnotes : doc :=
  [Elem "section" []
    [Elem "ol" []
      [list_item "a" [Elem "p" [] [Text "A"; noteref_link "endnotes.xhtml#c" "3"]];
       list_item "b" [Elem "p" [] [noteref_link "endnotes.xhtml#d" "4"]];
       list_item "c" [Elem "p" [] [Text "C"]];
       list_item "d" [Elem "p" [] [Text "D"]]]]].

Definition ex_opf : doc :=
  [Elem "spine" [] [Elem "itemref" [("idref", "chapter-1.xhtml")] [];
                    Elem "itemref" [("idref", "endnotes.xhtml")] []]].

(** chapter-1.xhtml cites [b] first, then [a]. *)
Definition ex_chapter : doc :=
  [Elem "p" [] [noteref_link "endnotes.xhtml#b" "1"; Text " and "; noteref_link "endnotes.xhtml#a" "2"]].

Definition ex_fs : FS :=
  fun p => if String.eqb p "book/src/epub/content.opf" then Some (Readable ex_opf)
           else if String.eqb p "book/src/epub/text/endnotes.xhtml" then Some (Readable ex_endnotes)
           else if String.eqb p "book/src/epub/text/chapter-1.xhtml" then Some (Readable ex_chapter)
           else None.

Definition ex_state : St :=
  mkSt 1 (match get_notes ex_endnotes with Some ns => ns | None => [] end) 0 false [].

(** The state and the writes at the end of [main] on the sample book. *)
Definition ex_run_st : St := Eval vm_compute in
  match main ex_fs "book" false with Finished _ _ st => st | _ => ex_state end.
Definition ex_run_writes : list string := Eval vm_compute in
  match main ex_fs "book" false with Finished _ ws _ => ws | _ => [] end.

(** The state of the body-file pass after a first marker citing [note-1]
    matched its Note in chapter-1.xhtml. *)
Definition c1_state : St :=
  mkSt 2 [mkNote 1 "note-1" [] "" "chapter-1.xhtml" true] 1 false [].

(** Notes whose first one cites, inside its text, a note already carrying
    the number the counter is at ([note-1]) and then a note [y]. *)
Definition c2_state : St :=
  mkSt 1 [mkNote 0 "a" [Elem "p" [] [noteref_link "endnotes.xhtml#note-1" "1";
                                      noteref_link "endnotes.xhtml#y" "2"]] "" "" false;
          mkNote 0 "note-1" [Elem "p" [] [Text "B"]] "" "" false;
          mkNote 0 "y" [Elem "p" [] [Text "Y"]] "" "" false] 0 false [].

(** A chapter citing [note-5], for which no Note exists. *)
Definition c4_chapter : doc :=
  [Elem "p" [] [Text "See"; noteref_link "endnotes.xhtml#note-5" "5"]].

Definition c4_fs : FS :=
  fun p => if String.eqb p "book/src/epub/text/chapter-1.xhtml" then Some (Readable c4_chapter) else None.

(** The hrefs that [get_notes] keeps as a back link, in document order:
    those of the links below an element child of the item whose
    [epub:type] is exactly a back-link role and whose [href] is not empty. *)
Definition backlink_href (l : node) : list string :=
  match l with
  | Elem _ la _ =>
      if is_backlink_role (get_attr la "epub:type") && negb (is_empty (get_attr la "href"))
      then [get_attr la "href"] else []
  | Text _ => []
  end.

Definition backlink_hrefs (ch : list node) : list string :=
  flat_map (fun c => match c with
                     | Elem _ _ cch => flat_map backlink_href (find_all (is_tag "a") cch)
                     | Text _ => []
                     end) ch.

Definition item_attrs (n : node) : attrs :=
  match n with Elem _ a _ => a | Text _ => [] end.

(** A list item with two back links. *)
Definition c5_item : node :=
  list_item "note-1"
    [Elem "p" [] [Text "A";
                  Elem "a" [("href", "chapter-1.xhtml#noteref-1"); ("epub:type", "backlink")] [Text "1"];
                  Elem "a" [("href", "chapter-2.xhtml#noteref-1"); ("epub:type", "backlink")] [Text "2"]]].

Definition c5_endnotes : doc := [Elem "ol" [] [c5_item]].



(** A book already numbered: chapter-1.xhtml cites [note-1], the only Note. *)
Definition c7_opf : doc := [Elem "spine" [] [Elem "itemref" [("idref", "chapter-1.xhtml")] []]].
Definition c7_chapter : doc := [Elem "p" [] [noteref_link "endnotes.xhtml#note-1" "1"]].
Definition c7_endnotes : doc := [Elem "ol" [] [list_item "note-1" [Elem "p" [] [Text "N"]]]].

Definition c7_fs : FS :=
  fun p => if String.eqb p "book/src/epub/content.opf" then Some (Readable c7_opf)
           else if String.eqb p "book/src/epub/text/endnotes.xhtml" then Some (Readable c7_endnotes)
           else if String.eqb p "book/src/epub/text/chapter-1.xhtml" then Some (Readable c7_chapter)
           else None.

Definition c7_run_st : St := Eval vm_compute in
  match main c7_fs "book" false with Finished _ _ st => st | _ => ex_state end.
Definition c7_run_writes : list string := Eval vm_compute in
  match main c7_fs "book" false with Finished _ ws _ => ws | _ => [] end.

(** The directory part [os.path.join] puts before a relative name. *)
Definition path_dir (a : string) : string :=
  if is_empty a then ""
  else match get (String.length a - 1) a with
       | Some "/"%char => a
       | _ => a ++ "/"
       end.

(** The old anchors of the note-reference links of a tree, in document
    order. *)
Definition anchors (l : list node) : list string :=
  map (fun n => old_anchor_of (item_attrs n)) (find_all is_noteref l).

(** No note-reference link holds another one. *)
Definition flat_refs (l : list node) : Prop :=
  Forall (fun n => find_all is_noteref (children_of n) = []) (find_all is_noteref l).

(** How many of the anchors [s], met from counter [c] on, differ from the
    anchor the counter gives them. *)
Fixpoint mism (c : nat) (s : list string) : nat :=
  match s with
  | [] => 0
  | x :: r => (if String.eqb (note_anchor c) x then 0 else 1) + mism (S c) r
  end.

(** The tree [process_file] reads at a path. *)
Definition doc_at (fs : FS) (p : string) : doc := fst (gethtml fs p).


(** No Note text cites a Note. *)
Definition refs_free (e : ListNote) : Prop := find_all is_noteref e.(contents) = [].

(** A book whose chapter cites its two Notes in reverse order. *)
Definition c8_chapter : doc :=
  [Elem "p" [] [noteref_link "endnotes.xhtml#note-2" "2"; Text " and ";
                noteref_link "endnotes.xhtml#note-1" "1"]].
Definition c8_endnotes : doc :=
  [Elem "ol" [] [list_item "note-1" [Elem "p" [] [Text "One"]];
                 list_item "note-2" [Elem "p" [] [Text "Two"]]]].

Definition c8_fs : FS :=
  fun p => if String.eqb p "book/src/epub/content.opf" then Some (Readable c7_opf)
           else if String.eqb p "book/src/epub/text/endnotes.xhtml" then Some (Readable c8_endnotes)
           else if String.eqb p "book/src/epub/text/chapter-1.xhtml" then Some (Readable c8_chapter)
           else None.

(** The files after a run of [main] on [fs]. *)
Definition after_run (fs : FS) (rootpath : string) (remove_orphans : bool) : FS :=
  match main fs rootpath remove_orphans with Finished fs' _ _ => fs' | _ => fs end.

(** The walk of the body-file pass over a tree without nested references. *)
Definition walk_ok (l l' : list node) (st st' : St) : Prop :=
  let s := anchors l in
  st'.(cur) = st.(cur) + List.length s /\
  st'.(changed) = st.(changed) + mism st.(cur) s /\
  anchors l' = map note_anchor (seq st.(cur) (List.length s)) /\
  flat_refs l' /\
  (st.(rewrite) = true -> st'.(rewrite) = true) /\
  (st'.(rewrite) = false -> mism st.(cur) s = 0).



(** The value of a string of decimal digits, read from the left. *)
Fixpoint decimal_value (s : string) (acc : nat) : nat :=
  match s with
  | EmptyString => acc
  | String c r => decimal_value r (acc * 10 + (nat_of_ascii c - 48))
  end.

Definition write_rel (s s' : St) : Prop :=
  s.(changed) <= s'.(changed) /\ s'.(rewrite) = s.(rewrite) || Nat.ltb s.(changed) s'.(changed).

(** A spine naming only excluded files. *)
Definition c9_opf : doc := [Elem "spine" [] [Elem "itemref" [("idref", "titlepage.xhtml")] [];
                                             Elem "itemref" [("idref", "endnotes.xhtml")] []]].

Definition c9_fs : FS :=
  fun p => if String.eqb p "book/src/epub/content.opf" then Some (Readable c9_opf) else ex_fs p.

(** The sample book with a content.opf that exists but cannot be read. *)
Definition x14_fs : FS :=
  fun p => if String.eqb p "book/src/epub/content.opf" then Some Unreadable else ex_fs p.

(** The sample book with an endnotes.xhtml that exists but cannot be read. *)
Definition x15_fs : FS :=
  fun p => if String.eqb p "book/src/epub/text/endnotes.xhtml" then Some Unreadable else ex_fs p.

(** A book at [/b] whose spine names endnotes.xhtml by its absolute path;
    endnotes.xhtml holds, outside its [ol], a marker numbered [note-1] that
    no Note carries. *)
Definition c7x_opf : doc :=
  [Elem "spine" [] [Elem "itemref" [("idref", "/b/src/epub/text/endnotes.xhtml")] []]].
Definition c7x_endnotes : doc :=
  [Elem "p" [] [noteref_link "endnotes.xhtml#note-1" "1"];
   Elem "ol" [] [list_item "n" [Elem "p" [] [Text "N"]]]].

Definition c7x_fs : FS :=
  fun p => if String.eqb p "/b/src/epub/content.opf" then Some (Readable c7x_opf)
           else if String.eqb p "/b/src/epub/text/endnotes.xhtml" then Some (Readable c7x_endnotes)
           else None.






(** [s'] has printed what [s] had, and then more. *)
Definition log_ext (s s' : St) : Prop := exists l, s'.(log) = s.(log) ++ l.

(** Three matched Notes, two of them carrying number 2. *)
Definition x11_notes : list ListNote :=
  [mkNote 2 "a" [] "" "" true; mkNote 1 "b" [] "" "" true; mkNote 2 "c" [] "" "" true].

(* ================================================================== *)
(** * General lemmas *)

Lemma proc_node_elem step t a ch st :
  proc_node step (Elem t a ch) st =
  let '(a', act, st1) := if is_noteref t a then step a st else (a, Keep, st) in
  let '(ch', st2) := proc_list step ch st1 in
  (Elem t a' (match act with Keep => ch' | SetChildren k => k end), st2).
Proof.
  simpl. destruct (if is_noteref t a then step a st else (a, Keep, st)) as [[a' act] st1].
  assert (E : forall l s,
    (fix go (l : list node) (st : St) : list node * St :=
       match l with
       | [] => ([], st)
       | x :: xs =>
           let '(x', st') := proc_node step x st in
           let '(xs', st'') := go xs st' in (x' :: xs', st'')
       end) l s = proc_list step l s).
  { induction l as [|x xs IH]; intros s; simpl; [reflexivity|].
    destruct (proc_node step x s) as [x' s']. rewrite IH. reflexivity. }
  rewrite E. reflexivity.
Qed.

Lemma proc_list_cons step x xs st :
  proc_list step (x :: xs) st =
  let '(x', st') := proc_node step x st in
  let '(xs', st'') := proc_list step xs st' in (x' :: xs', st'').
Proof. reflexivity. Qed.

(** A property of the state that every link step establishes between its
    input and its output holds across a whole walk. *)
Section Lift.
Variable step : link_step.
Variable R : St -> St -> Prop.
Hypothesis R_refl : forall st, R st st.
Hypothesis R_trans : forall s1 s2 s3, R s1 s2 -> R s2 s3 -> R s1 s3.
Hypothesis step_R : forall a st, R st (snd (step a st)).

Lemma proc_list_R_of (l : list node) :
  Forall (fun n => forall st, R st (snd (proc_node step n st))) l ->
  forall st, R st (snd (proc_list step l st)).
Proof.
  induction 1 as [|x xs Hx Hxs IH]; intros st; simpl; [apply R_refl|].
  specialize (Hx st). destruct (proc_node step x st) as [x' st'] eqn:Ex.
  specialize (IH st'). destruct (proc_list step xs st') as [xs' st''].
  simpl in *. eauto.
Qed.

Lemma proc_node_R (n : node) : forall st, R st (snd (proc_node step n st)).
Proof.
  induction n as [s|t a ch IH] using node_ind'; intros st; [apply R_refl|].
  rewrite proc_node_elem.
  assert (H1 : R st (snd (if is_noteref t a then step a st else (a, Keep, st)))).
  { destruct (is_noteref t a); [apply step_R | apply R_refl]. }
  destruct (if is_noteref t a then step a st else (a, Keep, st)) as [[a' act] st1].
  pose proof (proc_list_R_of ch IH st1) as H2.
  destruct (proc_list step ch st1) as [ch' st2]. simpl in *. eauto.
Qed.

Lemma proc_list_R (l : list node) : forall st, R st (snd (proc_list step l st)).
Proof.
  intros st. apply proc_list_R_of. apply Forall_forall. intros n _. apply proc_node_R.
Qed.

Lemma proc_contents_R (l : list node) : forall st, R st (snd (proc_contents step l st)).
Proof.
  induction l as [|c cs IH]; intros st; simpl; [apply R_refl|].
  assert (H1 : R st (snd (proc_content step c st))).
  { destruct c as [s|t a ch]; simpl; [apply R_refl|].
    pose proof (proc_list_R ch st). destruct (proc_list step ch st). exact H. }
  destruct (proc_content step c st) as [c' st'].
    specialize (IH st'). destruct (proc_contents step cs st'). simpl in *. eauto.
  Qed.
End Lift.

(** [update_first] changes at most the first element satisfying [p]. *)
Lemma nth_error_update_first {A} (p : A -> bool) (f : A -> A) (l : list A) i x :
  nth_error l i = Some x ->
  nth_error (update_first p f l) i = Some x \/
  (p x = true /\ nth_error (update_first p f l) i = Some (f x)).
Proof.
  revert i. induction l as [|y r IH]; intros [|i] H; simpl in *; try discriminate.
  - injection H as <-. destruct (p y) eqn:E; simpl; auto.
  - destruct (p y); simpl; auto.
Qed.

Lemma length_update_first {A} (p : A -> bool) (f : A -> A) (l : list A) :
  List.length (update_first p f l) = List.length l.
Proof. induction l as [|y r IH]; simpl; [reflexivity|]. destruct (p y); simpl; auto. Qed.

Lemma map_update_first {A B} (g : A -> B) (p : A -> bool) (f : A -> A) (l : list A) :
  (forall x, g (f x) = g x) -> map g (update_first p f l) = map g l.
Proof.
  intros Hf. induction l as [|y r IH]; simpl; [reflexivity|].
  destruct (p y); simpl; rewrite ?Hf, ?IH; reflexivity.
Qed.

Lemma in_update_first {A} (p : A -> bool) (f : A -> A) (l : list A) y :
  In y (update_first p f l) -> In y l \/ exists x, In x l /\ y = f x.
Proof.
  induction l as [|z r IH]; simpl; [tauto|].
  destruct (p z); simpl.
  - intros [<-|H]; [right; eauto | left; auto].
  - intros [<-|H]; [left; auto|]. destruct (IH H) as [H'|[x [Hx ->]]]; eauto.
Qed.

Lemma map_if_none {A} (p : A -> bool) (f : A -> A) (l : list A) :
  List.length (filter p l) = 0 -> map (fun x => if p x then f x else x) l = l.
Proof.
  induction l as [|z r IH]; simpl; [reflexivity|].
  destruct (p z); simpl; [discriminate|]. intros H. f_equal. auto.
Qed.

(** With exactly one element satisfying [p], [update_first] is a map. *)
Lemma update_first_unique {A} (p : A -> bool) (f : A -> A) (l : list A) :
  List.length (filter p l) = 1 ->
  update_first p f l = map (fun x => if p x then f x else x) l.
Proof.
  induction l as [|y r IH]; simpl; [discriminate|].
  destruct (p y) eqn:E; simpl; intros H.
  - injection H as H. rewrite map_if_none; auto.
  - f_equal. auto.
Qed.

Lemma nth_error_update_nth {A} (i j : nat) (f : A -> A) (l : list A) :
  nth_error (update_nth i f l) j =
  if Nat.eqb i j then option_map f (nth_error l j) else nth_error l j.
Proof.
  revert i j. induction l as [|x r IH]; intros i j.
  - simpl. destruct (Nat.eqb i j), j; reflexivity.
  - destruct i, j; simpl; auto.
Qed.

Lemma length_update_nth {A} (i : nat) (f : A -> A) (l : list A) :
  List.length (update_nth i f l) = List.length l.
Proof. revert i. induction l as [|x r IH]; intros [|i]; simpl; auto. Qed.

Lemma matches_of_length_anchors (a : string) (l1 l2 : list ListNote) :
  map anchor l1 = map anchor l2 ->
  List.length (matches_of a l1) = List.length (matches_of a l2).
Proof.
  revert l2. induction l1 as [|x r IH]; intros [|y r2] H; simpl in *; try discriminate; auto.
  injection H as Hxy Hr. unfold matches_of in *. simpl. rewrite Hxy.
  destruct (String.eqb (anchor y) a); simpl; auto.
Qed.

(* ------------------------------------------------------------------ *)
(** ** What one link step does *)



Lemma body_step_facts de fn fp a st :
  let old := old_anchor_of a in
  let st' := snd (body_step de fn fp a st) in
  st'.(cur) = S st.(cur) /\
  st'.(changed) = st.(changed) + (if String.eqb (note_anchor st.(cur)) old then 0 else 1) /\
  st'.(notes) =
    (if Nat.eqb (List.length (matches_of old st.(notes))) 1
     then update_first (fun x => String.eqb x.(anchor) old) (assign_body fn st.(cur)) st.(notes)
     else st.(notes)) /\
  (st.(rewrite) = true -> st'.(rewrite) = true) /\
  (st'.(changed) = st.(changed) \/ st'.(rewrite) = true).
Proof.
  unfold body_step.
  destruct (String.eqb (note_anchor (cur st)) (old_anchor_of a)) eqn:E;
  cbn -[note_anchor old_anchor_of matches_of String.eqb String.append];
  destruct (List.length (matches_of (old_anchor_of a) (notes st))) as [|[|k]] eqn:L;
  try destruct de; cbn -[note_anchor old_anchor_of matches_of String.eqb String.append];
  rewrite ?L; repeat split; auto; lia.
Qed.

Lemma endnotes_step_facts de a st :
  let old := old_anchor_of a in
  let new := note_anchor st.(cur) in
  let st' := snd (endnotes_step de a st) in
  (String.eqb new old = true -> endnotes_step de a st = (a, Keep, st)) /\
  (String.eqb new old = false ->
     st'.(cur) = S st.(cur) /\ st'.(changed) = S st.(changed) /\
     st'.(notes) =
       (if Nat.eqb (List.length (matches_of old st.(notes))) 1
        then update_first (fun x => String.eqb x.(anchor) old) (assign_self new st.(cur)) st.(notes)
        else st.(notes))).
Proof.
  unfold endnotes_step. split; intros E; rewrite E;
  cbn -[note_anchor old_anchor_of matches_of String.eqb String.append]; [reflexivity|].
  destruct (List.length (matches_of (old_anchor_of a) (notes st))) as [|[|k]] eqn:L;
  try destruct de; cbn -[note_anchor old_anchor_of matches_of String.eqb String.append];
  rewrite ?L; repeat split; auto.
Qed.

(* ------------------------------------------------------------------ *)
(** ** Frame of the body-file pass *)

Lemma note_frame_refl st : note_frame st st.
Proof. split; [reflexivity|]. intros i x H. exists x. auto. Qed.

Lemma note_frame_trans s1 s2 s3 : note_frame s1 s2 -> note_frame s2 s3 -> note_frame s1 s3.
Proof.
  intros [A12 F12] [A23 F23]. split; [congruence|].
  intros i x Hx. destruct (F12 i x Hx) as [y [Hy Cy]].
  destruct (F23 i y Hy) as [z [Hz Cz]]. exists z. split; [exact Hz|].
  rewrite (matches_of_length_anchors _ _ _ A12) in Cz.
  destruct Cy as [->|[Ly [n [s ->]]]]; [exact Cz|].
  right. split; [exact Ly|]. simpl in Cz.
  destruct Cz as [->|[_ [n' [s' ->]]]]; eauto.
Qed.

Lemma body_step_frame de fn fp a st : note_frame st (snd (body_step de fn fp a st)).
Proof.
  destruct (body_step_facts de fn fp a st) as (_ & _ & N & _).
  simpl in N. unfold note_frame. rewrite N.
  destruct (Nat.eqb _ 1) eqn:L; [|apply note_frame_refl].
  apply Nat.eqb_eq in L. split.
  - apply map_update_first. intros x. destruct x; reflexivity.
  - intros i x Hx. destruct (nth_error_update_first (fun x => String.eqb x.(anchor) (old_anchor_of a))
                (assign_body fn (cur st)) _ _ _ Hx)
      as [H|[Hp H]]; eexists; split; try eassumption; [left; reflexivity|].
    right. apply String.eqb_eq in Hp. rewrite <- Hp in L. split; [exact L|].
    destruct x; simpl. do 2 eexists. reflexivity.
Qed.

Lemma process_file_frame fs tp f de st : note_frame st (fst (process_file fs tp f de st)).
Proof.
  unfold process_file. destruct (gethtml fs (path_join tp f)) as [xhtml msgs].
  set (st0 := mkSt (cur st) (notes st) (changed st) false (log st ++ msgs)).
  pose proof (proc_list_R (body_step de f (path_join tp f)) note_frame note_frame_refl
                note_frame_trans (body_step_frame de f (path_join tp f)) xhtml st0) as H.
  destruct (proc_list _ xhtml st0) as [soup st1]. simpl in *.
  apply (note_frame_trans st st0 st1); [|exact H].
  split; [reflexivity|]. intros i x Hx. exists x. auto.
Qed.

(* ------------------------------------------------------------------ *)
(** ** Numbers of matched Notes *)

Lemma in_matched_numbers n l :
  In n (map number (filter matched l)) <-> exists y, In y l /\ y.(matched) = true /\ y.(number) = n.
Proof.
  rewrite in_map_iff. split.
  - intros [y [<- Hy]]. apply filter_In in Hy. exists y. tauto.
  - intros [y [Hy [Hm <-]]]. exists y. split; [reflexivity|]. apply filter_In. auto.
Qed.

Lemma nodup_matched_tail x r :
  NoDup (map number (filter matched (x :: r))) -> NoDup (map number (filter matched r)).
Proof. simpl. destruct (matched x); simpl; [intros H; inversion H; auto | auto]. Qed.

Lemma numbers_below_weaken c c' ns : c <= c' -> numbers_below c ns -> numbers_below c' ns.
Proof. intros Hc. apply Forall_impl. intros x H Hm. specialize (H Hm). lia. Qed.

Lemma update_first_inv (p : ListNote -> bool) (f : ListNote -> ListNote) c ns :
  (forall x, (f x).(matched) = true /\ (f x).(number) = c) ->
  numbers_below c ns -> NoDup (map number (filter matched ns)) ->
  numbers_below (S c) (update_first p f ns) /\
  NoDup (map number (filter matched (update_first p f ns))).
Proof.
  intros Hf. induction ns as [|x r IH]; simpl; intros Hb Hd; [split; [constructor | exact Hd]|].
  inversion Hb as [|? ? Hx Hr]; subst.
  destruct (p x) eqn:Ep; simpl.
  - destruct (Hf x) as [Hm Hn]. split.
    + constructor; [intros _; lia | eapply numbers_below_weaken; [|exact Hr]; lia].
    + rewrite Hm. simpl. constructor.
      * rewrite in_matched_numbers. intros [y [Hy [Hym Hyn]]].
        rewrite Forall_forall in Hr. specialize (Hr y Hy Hym). lia.
      * apply (nodup_matched_tail x r Hd).
  - destruct (IH Hr (nodup_matched_tail x r Hd)) as [Hb' Hd']. split.
    + constructor; [intros Hm; specialize (Hx Hm); lia | exact Hb'].
    + destruct (matched x) eqn:Em; simpl; [|exact Hd'].
      constructor; [|exact Hd'].
      rewrite in_matched_numbers. intros [y [Hy [Hym Hyn]]].
      destruct (in_update_first p f r y Hy) as [Hyr|[z [Hz ->]]].
      * simpl in Hd. inversion Hd as [|? ? Hnin _]; subst.
        apply Hnin. apply in_matched_numbers. exists y. auto.
      * destruct (Hf z) as [_ Hn]. specialize (Hx eq_refl). lia.
Qed.

Lemma body_step_inv de fn fp a st : numbering_inv st -> numbering_inv (snd (body_step de fn fp a st)).
Proof.
  destruct (body_step_facts de fn fp a st) as (Hc & _ & Hn & _). cbv zeta in Hc, Hn.
  intros [Hb Hd]. unfold numbering_inv. rewrite Hc, Hn.
  destruct (Nat.eqb _ 1).
  - apply update_first_inv; auto; intros x; destruct x; split; reflexivity.
  - split; [eapply numbers_below_weaken; [|exact Hb]; lia | exact Hd].
Qed.

Lemma endnotes_step_inv de a st : numbering_inv st -> numbering_inv (snd (endnotes_step de a st)).
Proof.
  destruct (endnotes_step_facts de a st) as [Heq Hne]. cbv zeta in Heq, Hne.
  destruct (String.eqb (note_anchor (cur st)) (old_anchor_of a)) eqn:E.
  - rewrite (Heq eq_refl). auto.
  - destruct (Hne eq_refl) as (Hc & _ & Hn). intros [Hb Hd]. unfold numbering_inv. rewrite Hc, Hn.
    destruct (Nat.eqb _ 1).
    + apply update_first_inv; auto; intros x; destruct x; split; reflexivity.
    + split; [eapply numbers_below_weaken; [|exact Hb]; lia | exact Hd].
Qed.

Lemma inv_rel_refl st : inv_rel st st.
Proof. unfold inv_rel; auto. Qed.

Lemma inv_rel_trans s1 s2 s3 : inv_rel s1 s2 -> inv_rel s2 s3 -> inv_rel s1 s3.
Proof. unfold inv_rel; auto. Qed.

Lemma update_nth_matched_numbers i (f : ListNote -> ListNote) l :
  (forall x, (f x).(matched) = x.(matched) /\ (f x).(number) = x.(number)) ->
  map number (filter matched (update_nth i f l)) = map number (filter matched l).
Proof.
  intros Hf. revert i. induction l as [|x r IH]; intros [|i]; simpl; auto.
  - destruct (Hf x) as [Hm Hn]. rewrite Hm. destruct (matched x); simpl; rewrite ?Hn; reflexivity.
  - destruct (matched x); simpl; rewrite IH; reflexivity.
Qed.

Lemma update_nth_Forall {A} (P : A -> Prop) i f (l : list A) :
  (forall x, P x -> P (f x)) -> Forall P l -> Forall P (update_nth i f l).
Proof.
  intros Hf H. revert i. induction H as [|x r Hx Hr IH]; intros [|i]; simpl; constructor; auto.
Qed.

Lemma endnote_at_inv de st i : numbering_inv st -> numbering_inv (endnote_at de st i).
Proof.
  unfold endnote_at. destruct (nth_error (notes st) i) as [e|]; [|auto].
  pose proof (proc_contents_R (endnotes_step de) inv_rel inv_rel_refl inv_rel_trans
                (endnotes_step_inv de) (contents e) st) as H.
  destruct (proc_contents (endnotes_step de) (contents e) st) as [cs st1].
  intros Hst. destruct (H Hst) as [Hb Hd]. split; simpl.
  - apply update_nth_Forall; [|exact Hb]. intros x Hx. destruct x; exact Hx.
  - rewrite update_nth_matched_numbers; [exact Hd|]. intros x. destruct x; split; reflexivity.
Qed.

Lemma process_endnotes_file_inv de st : numbering_inv st -> numbering_inv (process_endnotes_file de st).
Proof.
  unfold process_endnotes_file. generalize (seq 0 (List.length (notes st))).
  intros l. revert st. induction l as [|i r IH]; intros st H; simpl; auto.
  apply IH. apply endnote_at_inv. exact H.
Qed.

Lemma print_inv msg st : numbering_inv st -> numbering_inv (print msg st).
Proof. auto. Qed.

Lemma process_file_inv fs tp f de st : numbering_inv st -> numbering_inv (fst (process_file fs tp f de st)).
Proof.
  unfold process_file. destruct (gethtml fs (path_join tp f)) as [xhtml msgs].
  set (st0 := mkSt (cur st) (notes st) (changed st) false (log st ++ msgs)).
  pose proof (proc_list_R (body_step de f (path_join tp f)) inv_rel inv_rel_refl
                inv_rel_trans (body_step_inv de f (path_join tp f)) xhtml st0) as H.
  destruct (proc_list _ xhtml st0) as [soup st1]. simpl in *. intros Hst. apply H. exact Hst.
Qed.

Lemma body_pass_inv tp de files w :
  numbering_inv w.(wst) -> numbering_inv (body_pass tp de files w).(wst).
Proof.
  revert w. induction files as [|f r IH]; intros w H; cbn [body_pass]; auto.
  destruct (mem_string f exclude_list); [apply IH; exact H|].
  pose proof (process_file_inv w.(wfs) tp f de (print ("Processing " ++ f) w.(wst)) H) as H1.
  destruct (process_file _ _ _ _ _) as [st' wr]. simpl in H1.
  apply IH. destruct wr as [[p d]|]; simpl; apply print_inv; exact H1.
Qed.

Lemma get_notes_unmatched d ns : get_notes d = Some ns -> Forall (fun x => x.(matched) = false) ns.
Proof.
  unfold get_notes. destruct (find_first "ol" d) as [ol|]; [|discriminate].
  intros H. injection H as <-. apply Forall_forall. intros x Hx.
  apply in_map_iff in Hx. destruct Hx as [item [<- _]]. destruct item; reflexivity.
Qed.

Lemma unmatched_inv c ns lg ch rw :
  Forall (fun x => x.(matched) = false) ns -> numbering_inv (mkSt c ns ch rw lg).
Proof.
  intros H. split; simpl.
  - eapply Forall_impl; [|exact H]. intros x Hx Hm. congruence.
  - replace (filter matched ns) with (@nil ListNote); [constructor|].
    induction H as [|x r Hx Hr IH]; simpl; [reflexivity|]. rewrite Hx. exact IH.
Qed.

Lemma main_inv fs root ro fs' ws st :
  main fs root ro = Finished fs' ws st -> numbering_inv st.
Proof.
  unfold main.
  destruct (negb (exists_file fs (opf_path root))); [discriminate|].
  destruct (negb (exists_file fs (notes_path root))); [discriminate|].
  destruct (gethtml fs (notes_path root)) as [notes_soup m1].
  destruct (get_notes notes_soup) as [endnotes|] eqn:Hn; [|discriminate].
  destruct (gethtml fs (opf_path root)) as [opf m2].
  destruct (get_content_files opf) as [files|]; [|discriminate].
  set (w := body_pass _ _ _ _).
  assert (Hw : numbering_inv (wst w)).
  { apply body_pass_inv. apply unmatched_inv. eapply get_notes_unmatched; eauto. }
  pose proof (process_endnotes_file_inv ro _ Hw) as He.
  destruct (Nat.eqb (processed w) 0).
  - intros H. injection H as _ _ <-. apply print_inv. exact He.
  - destruct (Nat.ltb 0 _).
    + destruct (recreate _ _); [|discriminate].
      intros H. injection H as _ _ <-. repeat apply print_inv. exact He.
    + intros H. injection H as _ _ <-. repeat apply print_inv. exact He.
Qed.

Lemma nodup_numbers_distinct ns :
  NoDup (map number (filter matched ns)) ->
  forall i j a b, i <> j -> nth_error ns i = Some a -> nth_error ns j = Some b ->
  a.(matched) = true -> b.(matched) = true -> a.(number) <> b.(number).
Proof.
  induction ns as [|x r IH]; intros Hd i j a b Hij Ha Hb Hma Hmb.
  - destruct i; discriminate.
  - pose proof (nodup_matched_tail x r Hd) as Hd'.
    destruct i as [|i], j as [|j]; simpl in Ha, Hb.
    + contradiction.
    + injection Ha as <-. simpl in Hd. rewrite Hma in Hd. inversion Hd as [|? ? Hnin _]; subst.
      intros E. apply Hnin. apply in_matched_numbers. exists b.
      split; [eapply nth_error_In; eauto | split; [exact Hmb | symmetry; exact E]].
    + injection Hb as <-. simpl in Hd. rewrite Hmb in Hd. inversion Hd as [|? ? Hnin _]; subst.
      intros E. apply Hnin. apply in_matched_numbers. exists a.
      split; [eapply nth_error_In; eauto | split; [exact Hma | exact E]].
    + apply (IH Hd' i j a b); auto.
Qed.

(** ** Back links of the loader *)

Lemma last_default_irrel (b : string) l d d' : last (b :: l) d = last (b :: l) d'.
Proof.
  revert b. induction l as [|c l IH]; intros b; [reflexivity|].
  change (last (c :: l) d = last (c :: l) d'). apply IH.
Qed.

Lemma last_cons_default (a : string) l d : last (a :: l) d = last l a.
Proof.
  destruct l as [|b l]; [reflexivity|].
  change (last (b :: l) d = last (b :: l) a). apply last_default_irrel.
Qed.

Lemma last_app (l1 l2 : list string) d : last (l1 ++ l2) d = last l2 (last l1 d).
Proof.
  revert d. induction l1 as [|a l1 IH]; intros d; [reflexivity|].
  rewrite <- app_comm_cons, !last_cons_default. apply IH.
Qed.

Lemma fold_last (hs : node -> list string) l bl :
  fold_left (fun bl c => last (hs c) bl) l bl = last (flat_map hs l) bl.
Proof.
  revert bl. induction l as [|c l IH]; intros bl; [reflexivity|].
  cbn [fold_left flat_map]. rewrite last_app. apply IH.
Qed.

Lemma fold_left_ext {A B : Type} (f g : A -> B -> A) l b :
  (forall x y, f x y = g x y) -> fold_left f l b = fold_left g l b.
Proof.
  intros E. revert b. induction l as [|y l IH]; intros b; [reflexivity|].
  cbn [fold_left]. rewrite E. apply IH.
Qed.

Lemma backlink_scan_last bl n : backlink_scan bl n = last (backlink_href n) bl.
Proof.
  destruct n as [s|t a ch]; [reflexivity|]. unfold backlink_scan, backlink_href.
  destruct (is_backlink_role _), (is_empty _); reflexivity.
Qed.

(** ** The rebuilt list *)

Lemma set_ol_node_elem items t a ch :
  set_ol_node items (Elem t a ch) =
  if String.eqb t "ol" then (Elem t a items, true)
  else let '(ch', found) := set_ol_list items ch in (Elem t a ch', found).
Proof.
  cbn [set_ol_node]. destruct (String.eqb t "ol"); [reflexivity|].
  assert (E : forall l,
    (fix go (l : list node) : list node * bool :=
       match l with
       | [] => ([], false)
       | x :: xs =>
           let '(x', f) := set_ol_node items x in
           if f then (x' :: xs, true)
           else let '(xs', f') := go xs in (x :: xs', f')
       end) l = set_ol_list items l).
  { induction l as [|x xs IH]; [reflexivity|]. cbn [set_ol_list]. rewrite IH. reflexivity. }
  rewrite E. reflexivity.
Qed.

Lemma find_all_cons p x l : find_all p (x :: l) = find_all_node p x ++ find_all p l.
Proof. reflexivity. Qed.

Lemma find_all_node_elem p t a ch :
  find_all_node p (Elem t a ch) = (if p t a then [Elem t a ch] else []) ++ find_all p ch.
Proof. reflexivity. Qed.

Lemma set_ol_list_none_of items l :
  Forall (fun n => find_all_node (is_tag "ol") n = [] -> set_ol_node items n = (n, false)) l ->
  find_all (is_tag "ol") l = [] -> set_ol_list items l = (l, false).
Proof.
  induction 1 as [|x xs Hx Hxs IH]; intros E; [reflexivity|].
  rewrite find_all_cons in E. apply app_eq_nil in E. destruct E as [E1 E2].
  cbn [set_ol_list]. rewrite (Hx E1), (IH E2). reflexivity.
Qed.

Lemma set_ol_node_none items n :
  find_all_node (is_tag "ol") n = [] -> set_ol_node items n = (n, false).
Proof.
  induction n as [s|t a ch IH] using node_ind'; intros E; [reflexivity|].
  rewrite find_all_node_elem in E. apply app_eq_nil in E. destruct E as [E1 E2].
  rewrite set_ol_node_elem. unfold is_tag in E1.
  destruct (String.eqb t "ol"); [discriminate E1|].
  rewrite (set_ol_list_none_of items ch IH E2). reflexivity.
Qed.

Lemma set_ol_list_some_of items l :
  Forall (fun n => forall a0 ch0 rest,
            find_all_node (is_tag "ol") n = Elem "ol" a0 ch0 :: rest ->
            exists n' rest', set_ol_node items n = (n', true) /\
                             find_all_node (is_tag "ol") n' = Elem "ol" a0 items :: rest') l ->
  forall a0 ch0 rest,
  find_all (is_tag "ol") l = Elem "ol" a0 ch0 :: rest ->
  exists l' rest', set_ol_list items l = (l', true) /\
                   find_all (is_tag "ol") l' = Elem "ol" a0 items :: rest'.
Proof.
  induction 1 as [|x xs Hx Hxs IH]; intros a0 ch0 rest E; [discriminate E|].
  rewrite find_all_cons in E. cbn [set_ol_list].
  destruct (find_all_node (is_tag "ol") x) as [|y ys] eqn:Ex.
  - rewrite (set_ol_node_none items x Ex). cbn [app] in E.
    destruct (IH a0 ch0 rest E) as (xs' & rest' & S & F).
    rewrite S. exists (x :: xs'), rest'. split; [reflexivity|].
    rewrite find_all_cons, Ex, F. reflexivity.
  - cbn [app] in E. injection E as Ey Er. subst y.
    destruct (Hx a0 ch0 ys eq_refl) as (x' & r' & S & F).
    rewrite S. exists (x' :: xs), (r' ++ find_all (is_tag "ol") xs). split; [reflexivity|].
    rewrite find_all_cons, F. reflexivity.
Qed.

Lemma set_ol_node_some items n a0 ch0 rest :
  find_all_node (is_tag "ol") n = Elem "ol" a0 ch0 :: rest ->
  exists n' rest', set_ol_node items n = (n', true) /\
                   find_all_node (is_tag "ol") n' = Elem "ol" a0 items :: rest'.
Proof.
  revert a0 ch0 rest.
  induction n as [s|t a ch IH] using node_ind'; intros a0 ch0 rest E; [discriminate E|].
  rewrite find_all_node_elem in E. rewrite set_ol_node_elem. unfold is_tag in E.
  destruct (String.eqb t "ol") eqn:T.
  - cbn [app] in E. injection E as Et Ea Ech Er. subst t a.
    exists (Elem "ol" a0 items), (find_all (is_tag "ol") items). split; [reflexivity|].
    rewrite find_all_node_elem. reflexivity.
  - cbn [app] in E.
    destruct (set_ol_list_some_of items ch IH a0 ch0 rest E) as (ch' & r' & S & F).
    rewrite S. exists (Elem t a ch'), r'. split; [reflexivity|].
    rewrite find_all_node_elem. unfold is_tag. rewrite T. exact F.
Qed.

Lemma set_ol_list_some items l a0 ch0 :
  find_first "ol" l = Some (Elem "ol" a0 ch0) ->
  exists l', set_ol_list items l = (l', true) /\ find_first "ol" l' = Some (Elem "ol" a0 items).
Proof.
  unfold find_first. destruct (find_all (is_tag "ol") l) as [|y rest] eqn:E; [discriminate|].
  cbn [hd_error]. intros H. injection H as Hy. subst y.
  assert (A : Forall (fun n => forall a0 ch0 rest,
            find_all_node (is_tag "ol") n = Elem "ol" a0 ch0 :: rest ->
            exists n' rest', set_ol_node items n = (n', true) /\
                             find_all_node (is_tag "ol") n' = Elem "ol" a0 items :: rest') l).
  { apply Forall_forall. intros n _. apply set_ol_node_some. }
  destruct (set_ol_list_some_of items l A a0 ch0 rest E) as (l' & r' & S & F).
  exists l'. split; [exact S|]. rewrite F. reflexivity.
Qed.





Definition by_number (x y : ListNote) : Prop := x.(number) <= y.(number).

Lemma insert_by_number_hd y x l :
  HdRel by_number y l -> by_number y x -> HdRel by_number y (insert_by_number x l).
Proof.
  intros H Hyx. destruct l as [|z l]; cbn [insert_by_number]; [constructor; exact Hyx|].
  destruct (Nat.leb _ _); constructor; [exact Hyx|]. inversion H; assumption.
Qed.

Lemma insert_by_number_sorted x l : Sorted by_number l -> Sorted by_number (insert_by_number x l).
Proof.
  induction l as [|y l IH]; intros H; cbn [insert_by_number]; [repeat constructor|].
  destruct (Nat.leb (number x) (number y)) eqn:L.
  - apply Nat.leb_le in L. constructor; [exact H|]. constructor. exact L.
  - apply Nat.leb_gt in L. apply Sorted_inv in H. destruct H as [Hs Hh].
    constructor; [apply IH, Hs|]. apply insert_by_number_hd; [exact Hh|]. unfold by_number. lia.
Qed.

Lemma sort_by_number_sorted l : Sorted by_number (sort_by_number l).
Proof. induction l; cbn [sort_by_number]; [constructor|]. apply insert_by_number_sorted. assumption. Qed.


(** ** Paths written by the body-file pass *)

Lemma str_app_assoc (s1 s2 s3 : string) : ((s1 ++ s2) ++ s3)%string = (s1 ++ s2 ++ s3)%string.
Proof. induction s1 as [|c s1 IH]; [reflexivity|]. cbn. rewrite IH. reflexivity. Qed.

Lemma str_app_cancel (p x y : string) : (p ++ x)%string = (p ++ y)%string -> x = y.
Proof. induction p as [|c p IH]; [tauto|]. cbn. intros H. injection H. exact IH. Qed.

Lemma path_dir_app a b :
  (if is_empty a then b
   else match get (String.length a - 1) a with
        | Some "/"%char => a ++ b
        | _ => a ++ "/" ++ b
        end)%string = (path_dir a ++ b)%string.
Proof.
  unfold path_dir. destruct (is_empty a); [reflexivity|].
  destruct (get (String.length a - 1) a) as [c|]; [|symmetry; apply str_app_assoc].
  destruct c as [[] [] [] [] [] [] [] []]; first [reflexivity | symmetry; apply str_app_assoc].
Qed.

Lemma path_join_rel a b : String.prefix "/" b = false -> path_join a b = (path_dir a ++ b)%string.
Proof.
  intros H. rewrite <- path_dir_app. destruct b as [|c b']; [reflexivity|].
  destruct c as [[] [] [] [] [] [] [] []]; try reflexivity. cbn in H. destruct b'; discriminate H.
Qed.

Lemma process_file_write_path fs tp f de st st' p d :
  process_file fs tp f de st = (st', Some (p, d)) -> p = path_join tp f.
Proof.
  unfold process_file. destruct (gethtml fs (path_join tp f)) as [x m].
  destruct (proc_list _ x _) as [soup st1].
  destruct (rewrite st1); intros H; injection H; intros; subst; reflexivity || discriminate.
Qed.

Lemma body_pass_writes tp de files w :
  exists ws, (body_pass tp de files w).(writes) = w.(writes) ++ ws /\
    forall p, In p ws -> exists f, In f files /\ mem_string f exclude_list = false /\ p = path_join tp f.
Proof.
  revert w. induction files as [|f r IH]; intros w.
  - exists []. split; [symmetry; apply app_nil_r | intros p []].
  - cbn [body_pass]. destruct (mem_string f exclude_list) eqn:Ex.
    + destruct (IH w) as (ws & E & H). exists ws. split; [exact E|].
      intros p Hp. destruct (H p Hp) as (g & Hg & Hx & Hq). exists g. split; [right; exact Hg|]. auto.
    + cbv zeta.
      destruct (process_file (wfs w) tp f de (print ("Processing " ++ f) (wst w))) as [st' [[p0 d0]|]] eqn:P.
      * apply process_file_write_path in P.
        match goal with |- context [body_pass tp de r ?w'] => destruct (IH w') as (ws & E & H) end.
        exists (p0 :: ws). split; [rewrite E; cbn [writes]; rewrite <- app_assoc; reflexivity|].
        intros p [<-|Hp]; [exists f; split; [left; reflexivity|]; auto|].
        destruct (H p Hp) as (g & Hg & Hx & Hq). exists g. split; [right; exact Hg|]. auto.
      * match goal with |- context [body_pass tp de r ?w'] => destruct (IH w') as (ws & E & H) end.
        exists ws. split; [exact E|].
        intros p Hp. destruct (H p Hp) as (g & Hg & Hx & Hq). exists g. split; [right; exact Hg|]. auto.
Qed.

(** ** The body-file pass on a book without nested references *)

Lemma lookup_attr_set_attr_neq k k' v a :
  String.eqb k' k = false -> lookup_attr (set_attr k v a) k' = lookup_attr a k'.
Proof.
  intros H. induction a as [|[k1 v1] a IH]; cbn [set_attr lookup_attr].
  - rewrite H. reflexivity.
  - destruct (String.eqb k k1) eqn:E; cbn [lookup_attr].
    + apply String.eqb_eq in E. subst k1. rewrite H. reflexivity.
    + rewrite IH. reflexivity.
Qed.

Lemma get_attr_set_attr_neq k k' v a :
  String.eqb k' k = false -> get_attr (set_attr k v a) k' = get_attr a k'.
Proof. intros H. unfold get_attr. rewrite lookup_attr_set_attr_neq by exact H. reflexivity. Qed.

Lemma get_attr_set_attr_eq k v a : get_attr (set_attr k v a) k = v.
Proof.
  unfold get_attr. induction a as [|[k1 v1] a IH]; cbn [set_attr lookup_attr].
  - rewrite String.eqb_refl. reflexivity.
  - destruct (String.eqb k k1) eqn:E; cbn [lookup_attr].
    + rewrite E. reflexivity.
    + rewrite E. exact IH.
Qed.

Lemma old_anchor_of_renumber n a : old_anchor_of (renumber_link n a) = note_anchor n.
Proof.
  unfold old_anchor_of, renumber_link.
  rewrite get_attr_set_attr_neq by reflexivity. rewrite get_attr_set_attr_eq. reflexivity.
Qed.

Lemma renumber_epub_type n a :
  get_attr (renumber_link n a) "epub:type" = get_attr a "epub:type".
Proof. unfold renumber_link. rewrite !get_attr_set_attr_neq by reflexivity. reflexivity. Qed.

Lemma body_step_shape de fn fp a st :
  exists act st',
    body_step de fn fp a st =
      ((if String.eqb (note_anchor (cur st)) (old_anchor_of a) then a else renumber_link (cur st) a),
       act, st') /\
    (act = Keep \/ exists k, act = SetChildren k /\ find_all is_noteref k = []).
Proof.
  unfold body_step. cbv beta zeta.
  destruct (String.eqb (note_anchor (cur st)) (old_anchor_of a)) eqn:E;
  cbv beta iota zeta delta [negb];
  destruct (List.length _) as [|[|k]]; try destruct de; cbv beta iota zeta;
  (eexists _, _; split; [reflexivity|]);
  first [left; reflexivity | right; eexists; split; reflexivity].
Qed.

Lemma body_step_out de fn fp a st a' act st' :
  body_step de fn fp a st = (a', act, st') ->
  old_anchor_of a' = note_anchor st.(cur) /\
  get_attr a' "epub:type" = get_attr a "epub:type" /\
  (act = Keep \/ exists k, act = SetChildren k /\ find_all is_noteref k = []) /\
  st'.(cur) = S st.(cur) /\
  st'.(changed) = st.(changed) + (if String.eqb (note_anchor st.(cur)) (old_anchor_of a) then 0 else 1) /\
  (st.(rewrite) = true -> st'.(rewrite) = true) /\
  (st'.(rewrite) = false -> String.eqb (note_anchor st.(cur)) (old_anchor_of a) = true).
Proof.
  intros H.
  destruct (body_step_facts de fn fp a st) as (Hu & Hc & _ & Hm & Hr). cbv zeta in Hu, Hc, Hr.
  rewrite H in Hu, Hc, Hm, Hr. cbn [snd] in Hu, Hc, Hm, Hr.
  destruct (body_step_shape de fn fp a st) as (act0 & st0 & Hs & Ha). rewrite H in Hs.
  pose proof (f_equal (fun p => fst (fst p)) Hs) as Ea. pose proof (f_equal (fun p => snd (fst p)) Hs) as Eact.
  cbn [fst snd] in Ea, Eact. subst act0.
  split; [|split; [|split; [exact Ha|split; [exact Hu|split; [exact Hc|split; [exact Hm|]]]]]].
  - destruct (String.eqb _ _) eqn:E; subst a'; [symmetry; apply String.eqb_eq, E|apply old_anchor_of_renumber].
  - destruct (String.eqb _ _); subst a'; [reflexivity|apply renumber_epub_type].
  - intros R. destruct Hr as [Hr|Hr]; [|congruence].
    destruct (String.eqb _ _); [reflexivity|]. lia.
Qed.

Lemma find_all_nil p : find_all p [] = [].
Proof. reflexivity. Qed.

Lemma find_all_one p n : find_all p [n] = find_all_node p n.
Proof. unfold find_all. cbn [flat_map]. apply app_nil_r. Qed.

Lemma find_all_app p l1 l2 : find_all p (l1 ++ l2) = find_all p l1 ++ find_all p l2.
Proof. unfold find_all. apply flat_map_app. Qed.

Lemma proc_free_of step l :
  Forall (fun n => forall st, find_all_node is_noteref n = [] -> proc_node step n st = (n, st)) l ->
  forall st, find_all is_noteref l = [] -> proc_list step l st = (l, st).
Proof.
  induction 1 as [|x xs Hx Hxs IH]; intros st E; [reflexivity|].
  rewrite find_all_cons in E. apply app_eq_nil in E. destruct E as [E1 E2].
  rewrite proc_list_cons, (Hx st E1), (IH st E2). reflexivity.
Qed.

Lemma proc_node_free step n st :
  find_all_node is_noteref n = [] -> proc_node step n st = (n, st).
Proof.
  revert st. induction n as [s|t a ch IH] using node_ind'; intros st E; [reflexivity|].
  rewrite find_all_node_elem in E. apply app_eq_nil in E. destruct E as [E1 E2].
  rewrite proc_node_elem. destruct (is_noteref t a); [discriminate E1|].
  rewrite (proc_free_of step ch IH st E2). reflexivity.
Qed.

Lemma proc_list_free step l st : find_all is_noteref l = [] -> proc_list step l st = (l, st).
Proof.
  apply proc_free_of. apply Forall_forall. intros n _ st' E. apply proc_node_free, E.
Qed.

Lemma anchors_cons x l : anchors (x :: l) = anchors [x] ++ anchors l.
Proof. unfold anchors. rewrite find_all_cons, find_all_one, map_app. reflexivity. Qed.

Lemma anchors_elem t a ch :
  anchors [Elem t a ch] = (if is_noteref t a then [old_anchor_of a] else []) ++ anchors ch.
Proof.
  unfold anchors. rewrite find_all_one, find_all_node_elem, map_app.
  destruct (is_noteref t a); reflexivity.
Qed.

Lemma anchors_free l : find_all is_noteref l = [] -> anchors l = [].
Proof. intros E. unfold anchors. rewrite E. reflexivity. Qed.

Lemma flat_cons x l : flat_refs (x :: l) <-> flat_refs [x] /\ flat_refs l.
Proof.
  unfold flat_refs. rewrite find_all_cons, find_all_one, Forall_app. tauto.
Qed.

Lemma flat_elem_ref t a ch :
  is_noteref t a = true -> (flat_refs [Elem t a ch] <-> find_all is_noteref ch = []).
Proof.
  intros Hn. unfold flat_refs. rewrite find_all_one, find_all_node_elem, Hn. cbn [app].
  split.
  - intros H. inversion H as [|x l Hx _]. exact Hx.
  - intros H. constructor; [exact H|]. rewrite H. constructor.
Qed.

Lemma flat_elem_other t a ch :
  is_noteref t a = false -> (flat_refs [Elem t a ch] <-> flat_refs ch).
Proof.
  intros Hn. unfold flat_refs. rewrite find_all_one, find_all_node_elem, Hn. reflexivity.
Qed.

Lemma flat_free l : find_all is_noteref l = [] -> flat_refs l.
Proof. intros E. unfold flat_refs. rewrite E. constructor. Qed.

Lemma mism_app c s1 s2 : mism c (s1 ++ s2) = mism c s1 + mism (c + List.length s1) s2.
Proof.
  revert c. induction s1 as [|x s1 IH]; intros c; cbn [app mism List.length].
  - rewrite Nat.add_0_r. reflexivity.
  - rewrite IH. replace (S c + List.length s1) with (c + S (List.length s1)) by lia. lia.
Qed.


Lemma mism_zero c s : mism c s = 0 -> s = map note_anchor (seq c (List.length s)).
Proof.
  revert c. induction s as [|x s IH]; intros c H; [reflexivity|].
  cbn [mism] in H. destruct (String.eqb (note_anchor c) x) eqn:E; [|lia].
  apply String.eqb_eq in E. subst x. cbn [List.length seq map]. f_equal. apply IH. exact H.
Qed.


Lemma walk_ok_cons x xs x' xs' st st1 st2 :
  walk_ok [x] [x'] st st1 -> walk_ok xs xs' st1 st2 ->
  walk_ok (x :: xs) (x' :: xs') st st2.
Proof.
  unfold walk_ok. cbv zeta. rewrite (anchors_cons x xs), (anchors_cons x' xs'), length_app, mism_app.
  intros (C1 & D1 & A1 & F1 & R1 & Z1) (C2 & D2 & A2 & F2 & R2 & Z2).
  rewrite C1 in C2, D2, A2, Z2.
  split; [lia|]. split; [lia|]. split.
  - rewrite A1, A2, seq_app, map_app. reflexivity.
  - split; [apply flat_cons; tauto|]. split; [tauto|].
    intros R. assert (R1' : st1.(rewrite) = false) by (destruct (rewrite st1); [rewrite (R2 eq_refl) in R; discriminate R | reflexivity]).
    rewrite (Z1 R1'), (Z2 R). reflexivity.
Qed.

Lemma walk_list_of de fn fp l :
  Forall (fun n => forall st n' st', flat_refs [n] ->
            proc_node (body_step de fn fp) n st = (n', st') -> walk_ok [n] [n'] st st') l ->
  forall st l' st', flat_refs l -> proc_list (body_step de fn fp) l st = (l', st') ->
  walk_ok l l' st st'.
Proof.
  induction 1 as [|x xs Hx Hxs IH]; intros st l' st' F P.
  - injection P as <- <-. unfold walk_ok, anchors. cbn. repeat split; auto; lia.
  - apply flat_cons in F. destruct F as [Fx Fxs].
    rewrite proc_list_cons in P.
    destruct (proc_node _ x st) as [x' st1] eqn:Px.
    destruct (proc_list _ xs st1) as [xs' st2] eqn:Pxs.
    injection P as <- <-.
    apply walk_ok_cons with st1; [apply (Hx st x' st1 Fx Px) | apply (IH st1 xs' st2 Fxs Pxs)].
Qed.

Lemma walk_node de fn fp n :
  forall st n' st', flat_refs [n] ->
  proc_node (body_step de fn fp) n st = (n', st') -> walk_ok [n] [n'] st st'.
Proof.
  induction n as [s|t a ch IH] using node_ind'; intros st n' st' F P.
  - cbn in P. injection P as <- <-. unfold walk_ok, anchors. cbn. repeat split; auto; lia.
  - rewrite proc_node_elem in P. destruct (is_noteref t a) eqn:Hn.
    + apply (flat_elem_ref t a ch Hn) in F.
      destruct (body_step de fn fp a st) as [[a' act] st1] eqn:B.
      destruct (body_step_out de fn fp a st a' act st1 B) as (Oa & Et & Act & C & D & R & Z).
      rewrite (proc_list_free _ ch st1 F) in P. injection P as <- <-.
      assert (Hn' : is_noteref t a' = true).
      { unfold is_noteref in *. rewrite Et. exact Hn. }
      assert (Fk : find_all is_noteref (match act with Keep => ch | SetChildren k => k end) = []).
      { destruct Act as [->|(k & -> & Hk)]; [exact F|exact Hk]. }
      unfold walk_ok. cbv zeta. rewrite !anchors_elem, Hn, Hn', (anchors_free ch F), (anchors_free _ Fk).
      cbn [app List.length mism seq map]. rewrite Oa.
      split; [lia|]. split; [lia|]. split; [reflexivity|].
      split; [apply (flat_elem_ref t a' _ Hn'), Fk|]. split; [exact R|].
      intros Rf. rewrite (Z Rf). reflexivity.
    + apply (flat_elem_other t a ch Hn) in F.
      destruct (proc_list _ ch st) as [ch' st2] eqn:Pc. injection P as <- <-.
      pose proof (walk_list_of de fn fp ch IH st ch' st2 F Pc) as W.
      unfold walk_ok in *. cbv zeta in *. rewrite !anchors_elem, Hn. cbn [app].
      destruct W as (C & D & A & Fl & R & Z).
      split; [exact C|]. split; [exact D|]. split; [exact A|].
      split; [apply (flat_elem_other t a ch' Hn), Fl|]. split; [exact R|exact Z].
Qed.

Lemma walk_list de fn fp l st l' st' :
  flat_refs l -> proc_list (body_step de fn fp) l st = (l', st') -> walk_ok l l' st st'.
Proof.
  apply walk_list_of. apply Forall_forall. intros n _. apply walk_node.
Qed.

Lemma process_file_walk fs tp f de st st' wr :
  flat_refs (doc_at fs (path_join tp f)) ->
  process_file fs tp f de st = (st', wr) ->
  st'.(cur) = st.(cur) + List.length (anchors (doc_at fs (path_join tp f))) /\
  st'.(changed) = st.(changed) + mism st.(cur) (anchors (doc_at fs (path_join tp f))) /\
  match wr with
  | Some (p, d') =>
      anchors d' = map note_anchor (seq st.(cur) (List.length (anchors (doc_at fs (path_join tp f))))) /\
      flat_refs d'
  | None => mism st.(cur) (anchors (doc_at fs (path_join tp f))) = 0
  end.
Proof.
  intros F P. unfold process_file, doc_at in *.
  destruct (gethtml fs (path_join tp f)) as [x m]. cbn [fst] in *.
  destruct (proc_list _ x _) as [soup st1] eqn:E.
  apply walk_list in E; [|exact F]. injection P as <- <-.
  destruct E as (C & D & A & Fl & R & Z). cbn [cur changed rewrite] in C, D, A, R, Z.
  split; [exact C|]. split; [exact D|].
  destruct (rewrite st1); [split; assumption | apply Z; reflexivity].
Qed.








(** ** The self-reference pass over Notes that cite no Note *)

Lemma proc_contents_free step l st : find_all is_noteref l = [] -> proc_contents step l st = (l, st).
Proof.
  induction l as [|c cs IH]; intros E; [reflexivity|].
  rewrite find_all_cons in E. apply app_eq_nil in E. destruct E as [E1 E2].
  cbn [proc_contents].
  assert (Pc : proc_content step c st = (c, st)).
  { destruct c as [s|t a ch]; [reflexivity|]. cbn [proc_content].
    rewrite find_all_node_elem in E1. apply app_eq_nil in E1. destruct E1 as [_ E3].
    rewrite (proc_list_free step ch st E3). reflexivity. }
  rewrite Pc, (IH E2). reflexivity.
Qed.

Lemma update_nth_same {A} i (f : A -> A) l x :
  nth_error l i = Some x -> f x = x -> update_nth i f l = l.
Proof.
  revert i. induction l as [|y l IH]; intros [|i] H Fx; cbn in H; try discriminate H; cbn [update_nth].
  - injection H as ->. rewrite Fx. reflexivity.
  - f_equal. apply IH; assumption.
Qed.

Lemma endnote_at_free de st i : Forall refs_free st.(notes) -> endnote_at de st i = st.
Proof.
  intros Hf. unfold endnote_at. destruct (nth_error (notes st) i) as [e|] eqn:N; [|reflexivity].
  assert (He : refs_free e) by (rewrite Forall_forall in Hf; apply Hf; eapply nth_error_In; exact N).
  rewrite (proc_contents_free _ _ st He). cbv beta iota.
  rewrite (update_nth_same i _ _ e N) by (destruct e; reflexivity).
  destruct st; reflexivity.
Qed.

Lemma process_endnotes_file_free de st :
  Forall refs_free st.(notes) -> process_endnotes_file de st = st.
Proof.
  intros Hf. unfold process_endnotes_file.
  generalize (seq 0 (List.length (notes st))). intros l.
  induction l as [|i l IH]; cbn [fold_left]; [reflexivity|].
  rewrite endnote_at_free by exact Hf. exact IH.
Qed.





(** ** Notes loaded from a list that cites no Note *)





Lemma find_all_is_tag_node nm n x :
  In x (find_all_node (is_tag nm) n) -> exists a ch, x = Elem nm a ch.
Proof.
  induction n as [s|t a ch IH] using node_ind'; intros H; [destruct H|].
  rewrite find_all_node_elem in H. apply in_app_or in H. destruct H as [H|H].
  - unfold is_tag in H. destruct (String.eqb t nm) eqn:E; [|destruct H].
    apply String.eqb_eq in E. subst t. destruct H as [<-|[]]. eauto.
  - unfold find_all in H. apply in_flat_map in H. destruct H as (y & Hy & Hx).
    rewrite Forall_forall in IH. exact (IH y Hy Hx).
Qed.

Lemma find_first_is_tag nm l x : find_first nm l = Some x -> exists a ch, x = Elem nm a ch.
Proof.
  unfold find_first. destruct (find_all (is_tag nm) l) as [|y r] eqn:E; [discriminate|].
  intros H. injection H as <-. assert (Hy : In y (find_all (is_tag nm) l)) by (rewrite E; left; reflexivity).
  unfold find_all in Hy. apply in_flat_map in Hy. destruct Hy as (z & _ & Hz).
  exact (find_all_is_tag_node nm z y Hz).
Qed.








(** ** The content file, the endnotes file and the body files are distinct *)








(** ** One run of main *)



(** ** Further lemmas on the functions of the program *)

Lemma decimal_value_app s t acc : decimal_value (s ++ t) acc = decimal_value t (decimal_value s acc).
Proof. revert acc. induction s as [|c s IH]; intros acc; [reflexivity|]. apply IH. Qed.

Lemma digits_aux_app f n acc : digits_aux f n acc = (digits_aux f n "" ++ acc)%string.
Proof.
  revert n acc. induction f as [|f IH]; intros n acc; [reflexivity|].
  cbn [digits_aux]. destruct (Nat.ltb n 10); [reflexivity|].
  rewrite (IH _ (String _ acc)), (IH _ (String _ "")), str_app_assoc. reflexivity.
Qed.

Lemma digit_value n : nat_of_ascii (ascii_of_nat (48 + n mod 10)) - 48 = n mod 10.
Proof.
  rewrite nat_ascii_embedding; [lia|]. pose proof (Nat.mod_upper_bound n 10). lia.
Qed.

Lemma digits_aux_value f n : n < f -> decimal_value (digits_aux f n "") 0 = n.
Proof.
  revert n. induction f as [|f IH]; intros n Hn; [lia|].
  cbn [digits_aux]. destruct (Nat.ltb_spec n 10) as [L|L].
  - cbn [decimal_value]. rewrite digit_value. apply Nat.mod_small. exact L.
  - rewrite digits_aux_app, decimal_value_app, IH.
    + cbn [decimal_value]. rewrite digit_value. pose proof (Nat.div_mod n 10). lia.
    + pose proof (Nat.div_lt n 10). lia.
Qed.

Lemma str_of_nat_value n : decimal_value (str_of_nat n) 0 = n.
Proof. apply digits_aux_value. lia. Qed.

Lemma note_anchor_injective n m : note_anchor n = note_anchor m -> n = m.
Proof.
  intros E. unfold note_anchor in E. apply str_app_cancel in E.
  rewrite <- (str_of_nat_value n), <- (str_of_nat_value m), E. reflexivity.
Qed.

Lemma after_hash_app p s :
  ~ In "#"%char (list_ascii_of_string p) -> after_hash (p ++ String "#" s) = Some s.
Proof.
  induction p as [|c p IH]; intros H; [reflexivity|].
  cbn [String.append after_hash]. cbn [list_ascii_of_string In] in H.
  destruct (Ascii.eqb c "#") eqn:E.
  - apply Ascii.eqb_eq in E. destruct H. left. exact E.
  - apply IH. intros Hi. apply H. right. exact Hi.
Qed.

Lemma after_hash_none p : ~ In "#"%char (list_ascii_of_string p) -> after_hash p = None.
Proof.
  induction p as [|c p IH]; intros H; [reflexivity|].
  cbn [after_hash]. cbn [list_ascii_of_string In] in H.
  destruct (Ascii.eqb c "#") eqn:E.
  - apply Ascii.eqb_eq in E. destruct H. left. exact E.
  - apply IH. intros Hi. apply H. right. exact Hi.
Qed.

(** ** Counting the links *)

Lemma proc_node_count step n st :
  (forall a s, (snd (step a s)).(cur) = S s.(cur)) ->
  (snd (proc_node step n st)).(cur) = st.(cur) + List.length (find_all_node is_noteref n).
Proof.
  intros Hs. revert st.
  induction n as [s|t a ch IH] using node_ind'; intros st; [cbn; lia|].
  rewrite proc_node_elem, find_all_node_elem, length_app.
  assert (H1 : (snd (if is_noteref t a then step a st else (a, Keep, st))).(cur) =
               st.(cur) + List.length (if is_noteref t a then [Elem t a ch] else [])).
  { destruct (is_noteref t a); [rewrite Hs; cbn; lia | cbn; lia]. }
  destruct (if is_noteref t a then step a st else (a, Keep, st)) as [[a' act] st1].
  cbn [snd] in H1.
  assert (H2 : forall l s, Forall (fun n => forall st, (snd (proc_node step n st)).(cur) =
                                   st.(cur) + List.length (find_all_node is_noteref n)) l ->
               (snd (proc_list step l s)).(cur) = s.(cur) + List.length (find_all is_noteref l)).
  { induction l as [|x xs IHl]; intros s F; [cbn; lia|]. inversion F as [|? ? Fx Fxs]; subst.
    cbn [proc_list]. specialize (Fx s). destruct (proc_node step x s) as [x' s'].
    specialize (IHl s' Fxs). destruct (proc_list step xs s') as [xs' s''].
    cbn [snd] in *. rewrite find_all_cons, length_app. lia. }
  specialize (H2 ch st1 IH). destruct (proc_list step ch st1) as [ch' st2].
  cbn [snd] in *. lia.
Qed.

Lemma proc_list_count step l st :
  (forall a s, (snd (step a s)).(cur) = S s.(cur)) ->
  (snd (proc_list step l st)).(cur) = st.(cur) + List.length (find_all is_noteref l).
Proof.
  intros Hs. revert st. induction l as [|x xs IH]; intros s; [cbn; lia|].
  cbn [proc_list]. pose proof (proc_node_count step x s Hs) as Hx.
  destruct (proc_node step x s) as [x' s']. specialize (IH s').
  destruct (proc_list step xs s') as [xs' s'']. cbn [snd] in *. rewrite find_all_cons, length_app. lia.
Qed.

Lemma process_file_cur fs tp f de st :
  (fst (process_file fs tp f de st)).(cur) =
  st.(cur) + List.length (find_all is_noteref (doc_at fs (path_join tp f))).
Proof.
  unfold process_file, doc_at. destruct (gethtml fs (path_join tp f)) as [x m]. cbn [fst].
  pose proof (proc_list_count (body_step de f (path_join tp f)) x
                (mkSt (cur st) (notes st) (changed st) false (log st ++ m))) as H.
  destruct (proc_list _ x _) as [soup st1]. cbn [fst snd] in *. apply H.
  intros a s. exact (proj1 (body_step_facts de f (path_join tp f) a s)).
Qed.

(** ** When process_file writes *)

Lemma body_step_no_orphan fn fp a st :
  (snd (body_step false fn fp a st)).(rewrite) =
    st.(rewrite) || negb (String.eqb (note_anchor st.(cur)) (old_anchor_of a)).
Proof.
  unfold body_step. cbv beta zeta.
  destruct (String.eqb (note_anchor (cur st)) (old_anchor_of a)) eqn:E;
  cbv beta iota zeta delta [negb];
  destruct (List.length _) as [|[|k]]; cbv beta iota zeta; cbn [snd rewrite set_cur set_notes print set_rewrite incr_changed];
  destruct (rewrite st); reflexivity.
Qed.

Lemma write_rel_refl s : write_rel s s.
Proof. split; [lia|]. rewrite Nat.ltb_irrefl, orb_false_r. reflexivity. Qed.

Lemma write_rel_trans s1 s2 s3 : write_rel s1 s2 -> write_rel s2 s3 -> write_rel s1 s3.
Proof.
  intros [L1 E1] [L2 E2]. split; [lia|]. rewrite E2, E1.
  destruct (rewrite s1); [reflexivity|]. cbn [orb].
  destruct (Nat.ltb_spec (changed s1) (changed s2)), (Nat.ltb_spec (changed s2) (changed s3)),
           (Nat.ltb_spec (changed s1) (changed s3)); cbn [orb]; try reflexivity; lia.
Qed.

Lemma body_step_write_rel fn fp a st : write_rel st (snd (body_step false fn fp a st)).
Proof.
  destruct (body_step_facts false fn fp a st) as (_ & C & _). cbv zeta in C.
  split; [lia|]. rewrite body_step_no_orphan, C.
  destruct (String.eqb (note_anchor (cur st)) (old_anchor_of a)); cbn [negb].
  - rewrite Nat.add_0_r, Nat.ltb_irrefl. reflexivity.
  - replace (Nat.ltb (changed st) (changed st + 1)) with true by (symmetry; apply Nat.ltb_lt; lia).
    reflexivity.
Qed.

Lemma insert_by_number_filter k x s :
  filter (fun y => Nat.eqb y.(number) k) (insert_by_number x s) =
  filter (fun y => Nat.eqb y.(number) k) (x :: s).
Proof.
  induction s as [|y s IH]; [reflexivity|]. cbn [insert_by_number].
  destruct (Nat.leb_spec (number x) (number y)) as [L|L]; [reflexivity|].
  cbn [filter] in IH |- *. rewrite IH.
  destruct (Nat.eqb_spec (number x) k), (Nat.eqb_spec (number y) k); try reflexivity; lia.
Qed.

Lemma find_first_none name l : find_first name l = None -> find_all (is_tag name) l = [].
Proof. unfold find_first. destruct (find_all (is_tag name) l); [reflexivity|discriminate]. Qed.

Lemma recreate_some d ns a0 ch0 :
  find_first "ol" d = Some (Elem "ol" a0 ch0) -> exists d', recreate d ns = Some d'.
Proof.
  intros H. destruct (set_ol_list_some (recreate_items ns) d a0 ch0 H) as (l' & S & _).
  exists l'. unfold recreate. rewrite S. reflexivity.
Qed.




Lemma idrefs_spec l fl :
  Forall (fun n => exists t a ch, n = Elem t a ch) l ->
  idrefs l = Some fl <->
  Forall (fun n => lookup_attr (item_attrs n) "idref" <> None) l /\
  fl = map (fun n => get_attr (item_attrs n) "idref") l.
Proof.
  intros He. revert fl. induction He as [|x l Hx _ IH]; intros fl.
  - cbn. split; [intros E; injection E as <-; split; [constructor|reflexivity]|].
    intros [_ ->]. reflexivity.
  - destruct Hx as (t & a & ch & ->). cbn [idrefs item_attrs map].
    unfold get_attr at 1. destruct (lookup_attr a "idref") as [v|] eqn:Lv.
    + destruct (idrefs l) as [vs|] eqn:Ev.
      * split.
        -- intros E. injection E as <-. destruct (proj1 (IH vs) eq_refl) as [F ->].
           split; [constructor; [cbn; rewrite Lv; discriminate|exact F]|reflexivity].
        -- intros [F ->]. inversion F; subst. pose proof (proj2 (IH _) (conj H2 eq_refl)) as E'.
           injection E' as <-. reflexivity.
      * split; [discriminate|]. intros [F ->]. inversion F; subst.
        pose proof (proj2 (IH _) (conj H2 eq_refl)) as E'. discriminate E'.
    + split; [discriminate|]. intros [F _]. inversion F; subst. cbn in H1. rewrite Lv in H1. congruence.
Qed.

Lemma endnotes_step_length de a st :
  List.length (snd (endnotes_step de a st)).(notes) = List.length st.(notes).
Proof.
  destruct (endnotes_step_facts de a st) as [E1 E2]. cbv zeta in E1, E2.
  destruct (String.eqb (note_anchor (cur st)) (old_anchor_of a)) eqn:E.
  - rewrite (E1 eq_refl). reflexivity.
  - destruct (E2 eq_refl) as (_ & _ & N). rewrite N.
    destruct (Nat.eqb _ 1); [apply length_update_first|reflexivity].
Qed.

Lemma body_pass_all_excluded tp de files w :
  Forall (fun f => mem_string f exclude_list = true) files -> body_pass tp de files w = w.
Proof.
  induction 1 as [|f r Hf _ IH]; [reflexivity|]. cbn [body_pass]. rewrite Hf. exact IH.
Qed.

(** ** The rebuilt list *)






Lemma sort_by_number_filter_number k l :
  filter (fun y => Nat.eqb y.(number) k) (sort_by_number l) =
  filter (fun y => Nat.eqb y.(number) k) l.
Proof.
  induction l as [|x l IH]; [reflexivity|]. cbn [sort_by_number].
  rewrite insert_by_number_filter. cbn [filter]. rewrite IH. reflexivity.
Qed.


Lemma stable_sorted_unique s1 s2 :
  StronglySorted by_number s1 -> StronglySorted by_number s2 ->
  (forall k, filter (fun y => Nat.eqb y.(number) k) s1 = filter (fun y => Nat.eqb y.(number) k) s2) ->
  s1 = s2.
Proof.
  intros H1. revert s2. induction H1 as [|x r1 S1 IH F1]; intros s2 H2 Hf.
  - destruct s2 as [|y r2]; [reflexivity|]. exfalso.
    specialize (Hf (number y)). cbn [filter] in Hf. rewrite Nat.eqb_refl in Hf. discriminate Hf.
  - destruct H2 as [|y r2 S2 F2].
    + exfalso. specialize (Hf (number x)). cbn [filter] in Hf. rewrite Nat.eqb_refl in Hf. discriminate Hf.
    + assert (Kxy : number x = number y).
      { pose proof (Hf (number x)) as Ex. pose proof (Hf (number y)) as Ey.
        cbn [filter] in Ex, Ey. rewrite Nat.eqb_refl in Ex, Ey.
        rewrite Forall_forall in F1, F2. unfold by_number in F1, F2.
        destruct (Nat.eqb_spec (number y) (number x)) as [E|Nxy]; [symmetry; exact E|].
        destruct (Nat.eqb_spec (number x) (number y)) as [E|_]; [exact E|].
        assert (Ix : In x (filter (fun z => Nat.eqb z.(number) (number x)) r2)) by (rewrite <- Ex; left; reflexivity).
        assert (Iy : In y (filter (fun z => Nat.eqb z.(number) (number y)) r1)) by (rewrite Ey; left; reflexivity).
        apply filter_In in Ix, Iy. pose proof (F2 x (proj1 Ix)). pose proof (F1 y (proj1 Iy)). lia. }
      assert (Exy : x = y /\ forall k, filter (fun z => Nat.eqb z.(number) k) r1 =
                                      filter (fun z => Nat.eqb z.(number) k) r2).
      { split.
        - specialize (Hf (number x)). cbn [filter] in Hf. rewrite Nat.eqb_refl, Kxy, Nat.eqb_refl in Hf.
          injection Hf as E _. exact E.
        - intros k. specialize (Hf k). cbn [filter] in Hf. rewrite <- Kxy in Hf.
          destruct (Nat.eqb (number x) k); [injection Hf as _ E; exact E | exact Hf]. }
      destruct Exy as [<- Hr]. f_equal. apply IH; assumption.
Qed.

(** ** The log *)

Lemma log_ext_refl s : log_ext s s.
Proof. exists []. symmetry. apply app_nil_r. Qed.

Lemma log_ext_trans s1 s2 s3 : log_ext s1 s2 -> log_ext s2 s3 -> log_ext s1 s3.
Proof. intros [l1 E1] [l2 E2]. exists (l1 ++ l2). rewrite E2, E1, app_assoc. reflexivity. Qed.

Lemma endnotes_step_log de a st : log_ext st (snd (endnotes_step de a st)).
Proof.
  unfold endnotes_step. cbv zeta. destruct (negb _); [|apply log_ext_refl].
  destruct (List.length _) as [|[|k]]; [destruct de|..]; cbv beta iota;
    unfold set_cur, print, incr_changed, set_notes; cbn [snd log];
    eexists; rewrite <- ?app_assoc; reflexivity.
Qed.

Lemma process_endnotes_file_log de st : log_ext st (process_endnotes_file de st).
Proof.
  unfold process_endnotes_file. generalize (seq 0 (List.length (notes st))) as l.
  intros l. revert st. induction l as [|i l IH]; intros st; [apply log_ext_refl|].
  cbn [fold_left]. eapply log_ext_trans; [|apply IH]. unfold endnote_at.
  destruct (nth_error (notes st) i) as [e|]; [|apply log_ext_refl].
  pose proof (proc_contents_R (endnotes_step de) log_ext log_ext_refl log_ext_trans
                (endnotes_step_log de) (contents e) st) as H.
  destruct (proc_contents _ _ st) as [cs st1]. exact H.
Qed.

(** ** Bare file names *)

Lemma bare_name_relative f : contains "/" f = false -> String.prefix "/" f = false.
Proof. destruct f as [|c r]; [reflexivity|]. cbn [contains]. destruct (String.prefix _ _); easy. Qed.

(** ** The outcome of main *)

Lemma main_exits_when fs root ro :
  exists_file fs (opf_path root) = false \/ exists_file fs (notes_path root) = false ->
  exists lg, main fs root ro = Exited lg.
Proof.
  intros H. unfold main. cbv zeta.
  destruct (exists_file fs (opf_path root)); [|eexists; reflexivity].
  destruct H as [H|H]; [discriminate H|]. rewrite H. eexists; reflexivity.
Qed.

Lemma main_crashes_when fs root ro :
  exists_file fs (opf_path root) = true -> exists_file fs (notes_path root) = true ->
  find_first "ol" (doc_at fs (notes_path root)) = None \/
  get_content_files (doc_at fs (opf_path root)) = None ->
  main fs root ro = Crashed.
Proof.
  intros O N H. unfold main. cbv zeta. rewrite O, N. cbv beta iota delta [negb].
  unfold doc_at in H.
  destruct (gethtml fs (notes_path root)) as [ns m1].
  destruct (gethtml fs (opf_path root)) as [opf m2]. cbn [fst] in H.
  unfold get_notes. destruct H as [H|H].
  - rewrite H. reflexivity.
  - destruct (find_first "ol" ns) as [ol|]; [|reflexivity]. cbv beta iota. rewrite H. reflexivity.
Qed.

Lemma main_finishes_when fs root ro :
  exists_file fs (opf_path root) = true -> exists_file fs (notes_path root) = true ->
  find_first "ol" (doc_at fs (notes_path root)) <> None ->
  get_content_files (doc_at fs (opf_path root)) <> None ->
  exists fs' ws st, main fs root ro = Finished fs' ws st.
Proof.
  intros O N F G. unfold main. cbv zeta. rewrite O, N. cbv beta iota delta [negb].
  unfold doc_at in F, G.
  destruct (gethtml fs (notes_path root)) as [nd m1].
  destruct (gethtml fs (opf_path root)) as [opf m2]. cbn [fst] in F, G.
  destruct (find_first "ol" nd) as [ol|] eqn:Fo; [|congruence].
  destruct (find_first_is_tag _ _ _ Fo) as (a0 & ch0 & ->).
  unfold get_notes. rewrite Fo. cbv beta iota.
  destruct (get_content_files opf) as [fl|]; [|congruence]. cbv beta iota zeta.
  destruct (Nat.eqb _ 0); [eauto|]. destruct (Nat.ltb _ _); [|eauto].
  destruct (recreate nd _) as [d'|] eqn:R; [eauto|]. exfalso.
  match type of R with recreate _ ?x = _ =>
    destruct (recreate_some nd x a0 ch0 Fo) as [d'' E] end.
  rewrite E in R. discriminate R.
Qed.

(* ================================================================== *)
(** * The claims *)

(** C3: after all passes of a run, no two distinct Notes that are both
    matched carry the same number. *)
Theorem matched_numbers_distinct fs root ro fs' ws st :
  main fs root ro = Finished fs' ws st ->
  forall i j a b, i <> j ->
  nth_error st.(notes) i = Some a -> nth_error st.(notes) j = Some b ->
  a.(matched) = true -> b.(matched) = true -> a.(number) <> b.(number).
Proof. intros H. apply nodup_numbers_distinct. exact (proj2 (main_inv _ _ _ _ _ _ H)). Qed.

Lemma matched_numbers_distinct_witness :
  exists fs' a b,
    main ex_fs "book" false = Finished fs' ex_run_writes ex_run_st /\
    nth_error ex_run_st.(notes) 0 = Some a /\ nth_error ex_run_st.(notes) 1 = Some b /\
    a.(matched) = true /\ b.(matched) = true /\ a.(number) <> b.(number).
Proof.
  assert (H : exists fs', main ex_fs "book" false = Finished fs' ex_run_writes ex_run_st)
    by (eexists; vm_compute; reflexivity).
  destruct H as [fs' H].
  exists fs', (nth 0 ex_run_st.(notes) new_note), (nth 1 ex_run_st.(notes) new_note).
  assert (Ha : nth_error ex_run_st.(notes) 0 = Some (nth 0 ex_run_st.(notes) new_note)) by reflexivity.
  assert (Hb : nth_error ex_run_st.(notes) 1 = Some (nth 1 ex_run_st.(notes) new_note)) by reflexivity.
  assert (Hma : (nth 0 ex_run_st.(notes) new_note).(matched) = true) by reflexivity.
  assert (Hmb : (nth 1 ex_run_st.(notes) new_note).(matched) = true) by reflexivity.
  repeat split; try assumption.
  exact (matched_numbers_distinct _ _ _ _ _ _ H 0 1 _ _ ltac:(discriminate) Ha Hb Hma Hmb).
Defined.

(** C10: a call of [process_file] leaves the anchor, contents and back-link
    of every Note unchanged; a Note it changes at all gets a new number,
    [matched = true] and a new source file, and only if it is the one Note
    carrying its anchor. *)
Theorem process_file_note_fields fs tp f de st :
  let st' := fst (process_file fs tp f de st) in
  map anchor st'.(notes) = map anchor st.(notes) /\
  List.length st'.(notes) = List.length st.(notes) /\
  forall i x, nth_error st.(notes) i = Some x ->
    exists y, nth_error st'.(notes) i = Some y /\
      y.(anchor) = x.(anchor) /\ y.(contents) = x.(contents) /\ y.(back_link) = x.(back_link) /\
      (y = x \/
       (List.length (matches_of x.(anchor) st.(notes)) = 1 /\
        exists n s, y = mkNote n x.(anchor) x.(contents) x.(back_link) s true)).
Proof.
  destruct (process_file_frame fs tp f de st) as [A F]. cbv zeta.
  split; [exact A|]. split.
  { rewrite <- (length_map anchor), A, length_map. reflexivity. }
  intros i x Hx. destruct (F i x Hx) as [y [Hy C]]. exists y. split; [exact Hy|].
  destruct C as [->|[L [n [s ->]]]]; [repeat split; auto|].
  repeat split; auto. right. eauto.
Qed.

Lemma process_file_note_fields_witness :
  exists x, nth_error ex_state.(notes) 0 = Some x /\
  exists y, nth_error (fst (process_file ex_fs "book/src/epub/text" "chapter-1.xhtml" false ex_state)).(notes) 0 = Some y /\
      y.(anchor) = x.(anchor) /\ y.(contents) = x.(contents) /\ y.(back_link) = x.(back_link) /\
      (y = x \/
       (List.length (matches_of x.(anchor) ex_state.(notes)) = 1 /\
        exists n s, y = mkNote n x.(anchor) x.(contents) x.(back_link) s true)).
Proof.
  eexists. assert (H : nth_error ex_state.(notes) 0 = Some _) by reflexivity.
  split; [exact H|].
  exact (proj2 (proj2 (process_file_note_fields ex_fs "book/src/epub/text" "chapter-1.xhtml" false ex_state)) 0 _ H).
Defined.

(** C1 (as stated, refuted): a Note already matched is not left alone by a
    later correlation.  The Note [note-1], matched with number 1 by a marker
    of chapter-1.xhtml, is selected again by a second marker citing
    [note-1] in chapter-2.xhtml: it is re-assigned number 2 and source
    file chapter-2.xhtml. *)
Lemma matched_note_reselected_counterexample :
  c1_state.(notes) = [mkNote 1 "note-1" [] "" "chapter-1.xhtml" true] /\
  (snd (body_step false "chapter-2.xhtml" "book/src/epub/text/chapter-2.xhtml"
          [("href", "endnotes.xhtml#note-1"); ("epub:type", "noteref")] c1_state)).(notes) =
    [mkNote 2 "note-1" [] "" "chapter-2.xhtml" true].
Proof. split; vm_compute; reflexivity. Qed.

(** C1 (amended): a correlation considers every Note whose anchor equals
    the marker's old anchor, matched or not; when exactly one Note carries
    it, that Note is (re-)assigned the current number, [matched = true] and
    the current source file; otherwise no Note changes.  The same holds for
    the self-reference pass whenever it correlates (the anchor then also
    becomes the new one). *)
Theorem correlation_candidates_all_notes de fn fp a st :
  let old := old_anchor_of a in
  let unique := Nat.eqb (List.length (matches_of old st.(notes))) 1 in
  (snd (body_step de fn fp a st)).(notes) =
    map (fun x => if unique && String.eqb x.(anchor) old then assign_body fn st.(cur) x else x)
        st.(notes) /\
  (String.eqb (note_anchor st.(cur)) old = false ->
   (snd (endnotes_step de a st)).(notes) =
    map (fun x => if unique && String.eqb x.(anchor) old
                  then assign_self (note_anchor st.(cur)) st.(cur) x else x) st.(notes)).
Proof.
  cbv zeta.
  assert (Hid : forall (g : ListNote -> ListNote) (l : list ListNote),
            map (fun x => if false && String.eqb x.(anchor) (old_anchor_of a) then g x else x) l = l).
  { intros g l. simpl. apply map_id. }
  split.
  - destruct (body_step_facts de fn fp a st) as (_ & _ & N & _). cbv zeta in N. rewrite N.
    destruct (Nat.eqb _ 1) eqn:L; [|rewrite Hid; reflexivity].
    apply Nat.eqb_eq in L. simpl. apply update_first_unique. exact L.
  - intros E. destruct (endnotes_step_facts de a st) as [_ Hne]. cbv zeta in Hne.
    destruct (Hne E) as (_ & _ & N). rewrite N.
    destruct (Nat.eqb _ 1) eqn:L; [|rewrite Hid; reflexivity].
    apply Nat.eqb_eq in L. simpl. apply update_first_unique. exact L.
Qed.

(** C2 (code defect): in the self-reference pass a nested marker whose old
    anchor already equals the new one neither advances the counter nor is
    correlated.  Two nested markers, the first citing [note-1] while the
    counter is at 1: the pass ends with the counter at 2, not 3, and the
    Note [note-1] stays unmatched (and is then dropped by [recreate]). *)
Theorem selfref_skips_counter_on_equal_anchor :
  (process_endnotes_file false c2_state).(cur) = 2 /\
  map matched (process_endnotes_file false c2_state).(notes) = [false; false; true].
Proof. vm_compute. split; reflexivity. Qed.

(** In the body-file pass every note-reference link advances the counter
    by exactly one, whatever the anchors and the outcome of correlation. *)
Lemma body_step_advances_counter de fn fp a st :
  (snd (body_step de fn fp a st)).(cur) = S st.(cur).
Proof. exact (proj1 (body_step_facts de fn fp a st)). Qed.

(** C4 (code defect): under orphan removal a marker with no matching Note
    is not removed: [link.clear()] empties it, but the [a] element stays in
    chapter-1.xhtml with its rewritten target and id. *)
Theorem orphan_marker_kept_when_removing :
  process_file c4_fs "book/src/epub/text" "chapter-1.xhtml" true (mkSt 1 [] 0 false []) =
  (mkSt 2 [] 1 true
     ["Changed note-5 to note-1 in book/src/epub/text/chapter-1.xhtml";
      "Couldn't find endnote with anchor note-5"; "Removing orphan note ref in text"],
   Some ("book/src/epub/text/chapter-1.xhtml",
         [Elem "p" [] [Text "See";
            Elem "a" [("href", "endnotes.xhtml#note-1"); ("epub:type", "noteref");
                      ("id", "noteref-1")] []]])).
Proof. vm_compute. reflexivity. Qed.

(** C9: a content file that cannot be opened is reported by its path and
    read as the empty document; [process_file] then returns the counter it
    was given, changes no Note and no change count, writes nothing, and the
    loop of [main] goes on with the next file. *)
Theorem unreadable_file_skipped tp f de r w :
  read_file w.(wfs) (path_join tp f) = None ->
  mem_string f exclude_list = false ->
  gethtml w.(wfs) (path_join tp f) = ([], [("Could not open " ++ path_join tp f)%string]) /\
  (forall st, exists st',
     process_file w.(wfs) tp f de st = (st', None) /\
     st'.(cur) = st.(cur) /\ st'.(notes) = st.(notes) /\ st'.(changed) = st.(changed) /\
     st'.(log) = st.(log) ++ [("Could not open " ++ path_join tp f)%string]) /\
  exists st',
    body_pass tp de (f :: r) w = body_pass tp de r (mkWorld w.(wfs) st' (S w.(processed)) w.(writes)) /\
    st'.(cur) = w.(wst).(cur) /\ st'.(notes) = w.(wst).(notes) /\ st'.(changed) = w.(wst).(changed) /\
    In (("Could not open " ++ path_join tp f)%string) st'.(log).
Proof.
  intros Hfs Hex.
  assert (G : gethtml w.(wfs) (path_join tp f) = ([], [("Could not open " ++ path_join tp f)%string])).
  { unfold gethtml. rewrite Hfs. reflexivity. }
  assert (P : forall st, process_file w.(wfs) tp f de st =
                (mkSt st.(cur) st.(notes) st.(changed) false
                   (st.(log) ++ [("Could not open " ++ path_join tp f)%string]), None)).
  { intros st. unfold process_file. rewrite G. reflexivity. }
  split; [exact G|]. split.
  - intros st. eexists. split; [apply P|].
    split; [|split; [|split]]; reflexivity.
  - cbn [body_pass]. rewrite Hex. cbv beta iota zeta. rewrite P. cbv beta iota zeta.
    eexists. split; [reflexivity|].
    split; [|split; [|split]]; try reflexivity.
    cbn [log print]. apply in_or_app. left. apply in_or_app. right. left. reflexivity.
Qed.

Lemma unreadable_file_skipped_witness :
  read_file (mkWorld c4_fs ex_state 0 []).(wfs) (path_join "book/src/epub/text" "chapter-2.xhtml") = None /\
  mem_string "chapter-2.xhtml" exclude_list = false /\
  exists st',
    body_pass "book/src/epub/text" false ["chapter-2.xhtml"; "chapter-1.xhtml"]
      (mkWorld c4_fs ex_state 0 []) =
    body_pass "book/src/epub/text" false ["chapter-1.xhtml"]
      (mkWorld c4_fs st' 1 []) /\
    st'.(cur) = ex_state.(cur) /\ st'.(notes) = ex_state.(notes) /\ st'.(changed) = ex_state.(changed) /\
    In (("Could not open " ++ path_join "book/src/epub/text" "chapter-2.xhtml")%string) st'.(log).
Proof.
  assert (H1 : read_file (mkWorld c4_fs ex_state 0 []).(wfs) (path_join "book/src/epub/text" "chapter-2.xhtml") = None) by reflexivity.
  assert (H2 : mem_string "chapter-2.xhtml" exclude_list = false) by reflexivity.
  split; [exact H1|]. split; [exact H2|].
  exact (proj2 (proj2 (unreadable_file_skipped "book/src/epub/text" "chapter-2.xhtml" false
                         ["chapter-1.xhtml"] (mkWorld c4_fs ex_state 0 []) H1 H2))).
Defined.

(** C5 (as stated, refuted): the back link is not the first return link of
    the item.  In an item with two back links, the first pointing at
    chapter-1.xhtml and the second at chapter-2.xhtml, the loaded Note carries
    the second. *)
Lemma first_backlink_not_kept_counterexample :
  hd_error (backlink_hrefs (children_of c5_item)) = Some "chapter-1.xhtml#noteref-1" /\
  get_notes c5_endnotes =
    Some [mkNote 0 "note-1" (children_of c5_item) "chapter-2.xhtml#noteref-1" "" false].
Proof. split; vm_compute; reflexivity. Qed.

(** C5 (amended): for every list item found (recursively) under the first
    [ol], the loader builds a Note with number 0, [matched = false], an
    empty source file, the item's [id] (or the empty string) as anchor,
    the item's children in order as contents, and as back link the href of
    the LAST link lying below one of the item's element children whose
    [epub:type] is exactly "se:referrer" or "backlink" and whose href is not
    empty (the empty string when there is none). *)
Theorem get_notes_items d ol :
  find_first "ol" d = Some ol ->
  get_notes d =
    Some (map (fun item => mkNote 0 (get_attr (item_attrs item) "id") (children_of item)
                                  (last (backlink_hrefs (children_of item)) "") "" false)
              (find_all (is_tag "li") (children_of ol))).
Proof.
  intros H. unfold get_notes. rewrite H. f_equal. apply map_ext.
  intros [s|t a ch]; [reflexivity|]. unfold note_of_item. f_equal.
  unfold backlink_hrefs. rewrite <- fold_last. apply fold_left_ext.
  intros bl [s|t' a' cch]; [reflexivity|].
  rewrite <- fold_last. apply fold_left_ext. intros b n. apply backlink_scan_last.
Qed.

Lemma get_notes_items_witness :
  find_first "ol" c5_endnotes = Some (Elem "ol" [] [c5_item]) /\
  get_notes c5_endnotes =
    Some (map (fun item => mkNote 0 (get_attr (item_attrs item) "id") (children_of item)
                                  (last (backlink_hrefs (children_of item)) "") "" false)
              (find_all (is_tag "li") (children_of (Elem "ol" [] [c5_item])))).
Proof.
  assert (H : find_first "ol" c5_endnotes = Some (Elem "ol" [] [c5_item])) by reflexivity.
  split; [exact H|]. exact (get_notes_items c5_endnotes _ H).
Defined.




(** C7 (as stated, refuted): endnotes.xhtml can be written while the change
    counter stays 0.  The spine of the book at [/b] names endnotes.xhtml by
    its absolute path, which is not in [exclude_list]; [process_file] then
    reads it as a body file, and under [-r] its orphan marker (already
    numbered [note-1], cited by no Note) makes it write the file back.  The
    self-reference pass changes nothing, so the run ends with the change
    counter at 0 and endnotes.xhtml among the files written. *)
Lemma endnotes_written_without_changes_counterexample :
  match main c7x_fs "/b" true with
  | Finished _ ws st => st.(changed) = 0 /\ In (notes_path "/b") ws
  | _ => False
  end.
Proof. vm_compute. split; [reflexivity | left; reflexivity]. Qed.

(** C7 (amended): when every spine entry is a bare file name (no '/') and
    the change counter is zero at the end of a run, endnotes.xhtml is not
    written: the body-file pass writes only the files it read, never the
    excluded endnotes.xhtml, and the rebuild, the only other writer, runs
    only on a nonzero counter. *)
Theorem no_endnotes_write_without_changes fs root ro fs' ws st :
  Forall (fun f => contains "/" f = false) (match get_content_files (doc_at fs (opf_path root)) with
                                            | Some fl => fl | None => [] end) ->
  main fs root ro = Finished fs' ws st ->
  st.(changed) = 0 ->
  ~ In (notes_path root) ws.
Proof.
  intros Hrel Hm Hc. unfold main in Hm. cbv zeta in Hm. unfold doc_at in Hrel.
  destruct (negb (exists_file fs (opf_path root))); [discriminate Hm|].
  destruct (negb (exists_file fs (notes_path root))); [discriminate Hm|].
  destruct (gethtml fs (notes_path root)) as [ns m1].
  destruct (get_notes ns) as [en|]; [|discriminate Hm].
  destruct (gethtml fs (opf_path root)) as [opf m2] eqn:G2. cbn [fst] in Hrel.
  destruct (get_content_files opf) as [fl|] eqn:G3; [|discriminate Hm].
  rewrite Forall_forall in Hrel.
  destruct (body_pass_writes (text_path_of root) ro fl
              (mkWorld fs (mkSt 1 en 0 false (m1 ++ m2)) 0 [])) as (ws0 & Ew & Hw).
  assert (Nw : ~ In (notes_path root)
                 (body_pass (text_path_of root) ro fl
                    (mkWorld fs (mkSt 1 en 0 false (m1 ++ m2)) 0 [])).(writes)).
  { rewrite Ew. cbn [writes app]. intros Hin.
    destruct (Hw _ Hin) as (f & Hf & Hx & Hp). unfold notes_path in Hp.
    rewrite (path_join_rel _ f (bare_name_relative f (Hrel f Hf))),
            (path_join_rel _ "endnotes.xhtml" eq_refl) in Hp.
    apply str_app_cancel in Hp. subst f. discriminate Hx. }
  destruct (Nat.eqb _ 0) in Hm; [injection Hm as <- <- <-; exact Nw|].
  destruct (Nat.ltb 0 _) eqn:L in Hm.
  - destruct (recreate _ _) in Hm; [|discriminate Hm].
    injection Hm as <- <- <-. unfold print in L, Hc. cbn [changed] in L, Hc.
    apply Nat.ltb_lt in L. lia.
  - injection Hm as <- <- <-. exact Nw.
Qed.

Lemma no_endnotes_write_without_changes_witness :
  Forall (fun f => contains "/" f = false) (match get_content_files (doc_at c7_fs (opf_path "book")) with
                                            | Some fl => fl | None => [] end) /\
  exists fs',
    main c7_fs "book" false = Finished fs' c7_run_writes c7_run_st /\
    c7_run_st.(changed) = 0 /\ ~ In (notes_path "book") c7_run_writes.
Proof.
  assert (Hrel : Forall (fun f => contains "/" f = false)
                   (match get_content_files (doc_at c7_fs (opf_path "book")) with
                    | Some fl => fl | None => [] end))
    by (vm_compute; repeat constructor).
  assert (H : exists fs', main c7_fs "book" false = Finished fs' c7_run_writes c7_run_st)
    by (eexists; vm_compute; reflexivity).
  assert (Hc : c7_run_st.(changed) = 0) by reflexivity.
  split; [exact Hrel|]. destruct H as [fs' H]. exists fs'.
  split; [exact H|]. split; [exact Hc|].
  exact (no_endnotes_write_without_changes c7_fs "book" false fs' c7_run_writes c7_run_st Hrel H Hc).
Defined.




(* ================================================================== *)
(** * Further properties of the code *)

(** X1: the anchors [note-N] of distinct numbers are distinct. *)
Theorem note_anchor_inj n m : note_anchor n = note_anchor m <-> n = m.
Proof. split; [apply note_anchor_injective|intros ->; reflexivity]. Qed.

(** X2: extract_anchor. *)
Theorem extract_anchor_first_hash p :
  ~ In "#"%char (list_ascii_of_string p) ->
  extract_anchor p = "" /\ forall s, extract_anchor (p ++ String "#" s) = s.
Proof.
  intros H. unfold extract_anchor. rewrite (after_hash_none p H). split; [reflexivity|].
  intros s. rewrite (after_hash_app p s H). reflexivity.
Qed.

Lemma extract_anchor_first_hash_witness :
  ~ In "#"%char (list_ascii_of_string "../text/endnotes.xhtml") /\
  extract_anchor "../text/endnotes.xhtml" = "" /\
  extract_anchor ("../text/endnotes.xhtml" ++ String "#" "note-1#x") = "note-1#x".
Proof.
  assert (H : ~ In "#"%char (list_ascii_of_string "../text/endnotes.xhtml")).
  { cbn [list_ascii_of_string]. intros Hi. repeat (destruct Hi as [Hi|Hi]; [discriminate Hi|]). exact Hi. }
  split; [exact H|]. exact (conj (proj1 (extract_anchor_first_hash _ H))
                               (proj2 (extract_anchor_first_hash _ H) "note-1#x")).
Defined.

(** X3: a renumbered link reads back as its new anchor. *)
Theorem renumbered_link_reads_back n a :
  old_anchor_of (renumber_link n a) = note_anchor n /\
  get_attr (renumber_link n a) "id" = ("noteref-" ++ str_of_nat n)%string /\
  is_noteref "a" (renumber_link n a) = is_noteref "a" a.
Proof.
  split; [apply old_anchor_of_renumber|]. split.
  - unfold renumber_link. apply get_attr_set_attr_eq.
  - unfold is_noteref. rewrite renumber_epub_type. reflexivity.
Qed.

(** X4: process_file returns the counter advanced by the number of note
    references of the file, nested ones included. *)
Theorem process_file_counter fs tp f de st :
  (fst (process_file fs tp f de st)).(cur) =
  st.(cur) + List.length (find_all is_noteref (doc_at fs (path_join tp f))).
Proof. apply process_file_cur. Qed.

(** X5: without [-r], process_file writes the file back exactly when it
    changed at least one note reference. *)
Theorem process_file_writes_iff_changed fs tp f st :
  snd (process_file fs tp f false st) <> None <->
  st.(changed) < (fst (process_file fs tp f false st)).(changed).
Proof.
  unfold process_file. destruct (gethtml fs (path_join tp f)) as [x m].
  pose proof (proc_list_R (body_step false f (path_join tp f)) write_rel write_rel_refl write_rel_trans
                (body_step_write_rel f (path_join tp f)) x
                (mkSt (cur st) (notes st) (changed st) false (log st ++ m))) as [_ H].
  destruct (proc_list _ x _) as [soup st1]. cbn [fst snd rewrite changed orb] in *.
  rewrite H. destruct (Nat.ltb_spec (changed st) (changed st1)); split; intros G;
  first [discriminate | lia | exact (fun E => G E) | idtac].
  - destruct (G eq_refl).
Qed.

(** X6: a file without note references is left as it is and not written. *)
Theorem process_file_no_noterefs fs tp f de st :
  find_all is_noteref (doc_at fs (path_join tp f)) = [] ->
  process_file fs tp f de st =
    (mkSt st.(cur) st.(notes) st.(changed) false (st.(log) ++ snd (gethtml fs (path_join tp f))), None).
Proof.
  unfold process_file, doc_at. destruct (gethtml fs (path_join tp f)) as [x m]. cbn [fst snd].
  intros H. rewrite (proc_list_free _ x _ H). reflexivity.
Qed.

Lemma process_file_no_noterefs_witness :
  find_all is_noteref (doc_at c8_fs (path_join "book/src/epub" "content.opf")) = [] /\
  process_file c8_fs "book/src/epub" "content.opf" true c1_state =
    (mkSt 2 c1_state.(notes) 1 false [], None).
Proof.
  assert (H : find_all is_noteref (doc_at c8_fs (path_join "book/src/epub" "content.opf")) = [])
    by (vm_compute; reflexivity).
  split; [exact H|]. exact (process_file_no_noterefs c8_fs "book/src/epub" "content.opf" true c1_state H).
Defined.

(** X7: after process_file on a file without nested references, its note
    references, in document order, point at note-c, note-(c+1), ... *)
Theorem process_file_renumbers_in_order fs tp f de st :
  flat_refs (doc_at fs (path_join tp f)) ->
  anchors (match snd (process_file fs tp f de st) with
           | Some (_, d) => d
           | None => doc_at fs (path_join tp f)
           end) =
  map note_anchor (seq st.(cur) (List.length (find_all is_noteref (doc_at fs (path_join tp f))))).
Proof.
  intros Fl. destruct (process_file fs tp f de st) as [st' wr] eqn:P.
  destruct (process_file_walk fs tp f de st st' wr Fl P) as (_ & _ & W).
  assert (La : List.length (anchors (doc_at fs (path_join tp f))) =
               List.length (find_all is_noteref (doc_at fs (path_join tp f))))
    by (unfold anchors; apply length_map).
  destruct wr as [[p d]|]; cbn [snd].
  - rewrite <- La. exact (proj1 W).
  - apply mism_zero in W. rewrite La in W. exact W.
Qed.

Lemma process_file_renumbers_in_order_witness :
  flat_refs (doc_at c8_fs (path_join "book/src/epub/text" "chapter-1.xhtml")) /\
  anchors (match snd (process_file c8_fs "book/src/epub/text" "chapter-1.xhtml" false ex_state) with
           | Some (_, d) => d
           | None => doc_at c8_fs (path_join "book/src/epub/text" "chapter-1.xhtml")
           end) = ["note-1"; "note-2"].
Proof.
  assert (H : flat_refs (doc_at c8_fs (path_join "book/src/epub/text" "chapter-1.xhtml")))
    by (vm_compute; repeat constructor).
  split; [exact H|].
  exact (process_file_renumbers_in_order c8_fs "book/src/epub/text" "chapter-1.xhtml" false ex_state H).
Defined.

(** X8: the body-file pass processes every spine entry not in the exclusion list. *)
Theorem body_pass_processed_count tp de files w :
  (body_pass tp de files w).(processed) =
  w.(processed) + List.length (filter (fun f => negb (mem_string f exclude_list)) files).
Proof.
  revert w. induction files as [|f r IH]; intros w; cbn [body_pass filter]; [cbn; lia|].
  destruct (mem_string f exclude_list); cbn [negb]; [apply IH|]. cbv zeta.
  destruct (process_file (wfs w) tp f de (print ("Processing " ++ f) (wst w))) as [st' [[p d]|]];
  rewrite IH; cbn [processed List.length]; lia.
Qed.

(** X9: main writes only endnotes.xhtml and body files of the spine that are
    not excluded. *)
Theorem main_writes_only fs root ro fs' ws st fl p :
  get_content_files (doc_at fs (opf_path root)) = Some fl ->
  main fs root ro = Finished fs' ws st ->
  In p ws ->
  p = notes_path root \/
  exists f, In f fl /\ mem_string f exclude_list = false /\ p = path_join (text_path_of root) f.
Proof.
  intros Gc M Hp. unfold main in M. cbv zeta in M.
  destruct (negb (exists_file fs (opf_path root))); [discriminate M|].
  destruct (negb (exists_file fs (notes_path root))); [discriminate M|].
  destruct (gethtml fs (notes_path root)) as [ns m1].
  destruct (get_notes ns) as [en|]; [|discriminate M].
  unfold doc_at in Gc. destruct (gethtml fs (opf_path root)) as [opf m2]. cbn [fst] in Gc.
  rewrite Gc in M.
  destruct (body_pass_writes (text_path_of root) ro fl
              (mkWorld fs (mkSt 1 en 0 false (m1 ++ m2)) 0 [])) as (ws0 & E & H).
  cbn [writes app] in E.
  destruct (Nat.eqb _ 0).
  { injection M as _ <- _. rewrite E in Hp. right. exact (H p Hp). }
  destruct (Nat.ltb 0 _).
  - destruct (recreate ns _) as [d'|]; [|discriminate M].
    injection M as _ <- _. rewrite E in Hp. apply in_app_or in Hp. destruct Hp as [Hp|[<-|[]]].
    + right. exact (H p Hp).
    + left. reflexivity.
  - injection M as _ <- _. rewrite E in Hp. right. exact (H p Hp).
Qed.

Lemma main_writes_only_witness :
  get_content_files (doc_at ex_fs (opf_path "book")) = Some ["chapter-1.xhtml"; "endnotes.xhtml"] /\
  main ex_fs "book" false = Finished (after_run ex_fs "book" false) ex_run_writes ex_run_st /\
  In "book/src/epub/text/chapter-1.xhtml" ex_run_writes /\
  ("book/src/epub/text/chapter-1.xhtml" = notes_path "book" \/
   exists f, In f ["chapter-1.xhtml"; "endnotes.xhtml"] /\ mem_string f exclude_list = false /\
             "book/src/epub/text/chapter-1.xhtml" = path_join (text_path_of "book") f).
Proof.
  assert (G : get_content_files (doc_at ex_fs (opf_path "book")) = Some ["chapter-1.xhtml"; "endnotes.xhtml"])
    by (vm_compute; reflexivity).
  assert (M : main ex_fs "book" false = Finished (after_run ex_fs "book" false) ex_run_writes ex_run_st)
    by (vm_compute; reflexivity).
  assert (I : In "book/src/epub/text/chapter-1.xhtml" ex_run_writes) by (vm_compute; left; reflexivity).
  split; [exact G|]. split; [exact M|]. split; [exact I|].
  exact (main_writes_only ex_fs "book" false _ _ _ _ _ G M I).
Defined.

(** X10: the self-reference pass changes nothing when no Note cites a Note. *)
Theorem endnotes_pass_identity de st :
  Forall refs_free st.(notes) -> process_endnotes_file de st = st.
Proof. apply process_endnotes_file_free. Qed.

Lemma endnotes_pass_identity_witness :
  Forall refs_free (match get_notes c8_endnotes with Some ns => ns | None => [] end) /\
  process_endnotes_file true
    (mkSt 3 (match get_notes c8_endnotes with Some ns => ns | None => [] end) 0 false []) =
    mkSt 3 (match get_notes c8_endnotes with Some ns => ns | None => [] end) 0 false [].
Proof.
  assert (H : Forall refs_free (match get_notes c8_endnotes with Some ns => ns | None => [] end))
    by (vm_compute; repeat constructor).
  split; [exact H|].
  exact (endnotes_pass_identity true
           (mkSt 3 (match get_notes c8_endnotes with Some ns => ns | None => [] end) 0 false []) H).
Defined.

(** X11: the order of the rebuild is the one Python's stable [list.sort]
    with key [number] defines: any list of Notes ascending by number that
    keeps, for every number, the Notes of [l] carrying it in their order in
    [l] is the result of [sort_by_number l]. *)
Theorem sort_by_number_unique l s :
  StronglySorted by_number s ->
  (forall k, filter (fun y => Nat.eqb y.(number) k) s = filter (fun y => Nat.eqb y.(number) k) l) ->
  s = sort_by_number l.
Proof.
  intros Hs Hf. apply stable_sorted_unique; [exact Hs| |].
  - apply Sorted_StronglySorted; [intros x y z; unfold by_number; lia | apply sort_by_number_sorted].
  - intros k. rewrite Hf, sort_by_number_filter_number. reflexivity.
Qed.

Lemma sort_by_number_unique_witness :
  let s := [mkNote 1 "b" [] "" "" true; mkNote 2 "a" [] "" "" true; mkNote 2 "c" [] "" "" true] in
  StronglySorted by_number s /\
  (forall k, filter (fun y => Nat.eqb y.(number) k) s = filter (fun y => Nat.eqb y.(number) k) x11_notes) /\
  s = sort_by_number x11_notes.
Proof.
  cbv zeta.
  assert (S : StronglySorted by_number
                [mkNote 1 "b" [] "" "" true; mkNote 2 "a" [] "" "" true; mkNote 2 "c" [] "" "" true]).
  { repeat constructor; unfold by_number; cbn [number]; lia. }
  assert (F : forall k, filter (fun y => Nat.eqb y.(number) k)
                [mkNote 1 "b" [] "" "" true; mkNote 2 "a" [] "" "" true; mkNote 2 "c" [] "" "" true] =
              filter (fun y => Nat.eqb y.(number) k) x11_notes).
  { intros k. unfold x11_notes. cbn [filter number].
    destruct k as [|[|[|k]]]; reflexivity. }
  split; [exact S|]. split; [exact F|]. exact (sort_by_number_unique x11_notes _ S F).
Defined.

(** X12: the rebuild fails ([ol.clear()] on None) exactly when the endnotes
    tree has no [ol]. *)
Theorem recreate_none_iff d ns : recreate d ns = None <-> find_first "ol" d = None.
Proof.
  split.
  - intros R. destruct (find_first "ol" d) as [ol|] eqn:F; [|reflexivity].
    destruct (find_first_is_tag _ _ _ F) as (a0 & ch0 & ->).
    destruct (recreate_some d ns a0 ch0 F) as [d' E]. rewrite E in R. discriminate R.
  - intros F. unfold recreate.
    rewrite (set_ol_list_none_of (recreate_items ns) d
               (proj2 (Forall_forall _ _) (fun n _ => set_ol_node_none _ n))
               (find_first_none _ _ F)).
    reflexivity.
Qed.



(** X14: main runs to its end exactly when content.opf and endnotes.xhtml
    both exist, the endnotes tree as read has an [ol] and every [itemref] of
    the content file as read has an [idref].  A file that exists but cannot
    be read is read as the empty document: an unreadable endnotes.xhtml has
    no [ol], while an unreadable content.opf gives an empty spine and the run
    still finishes.  In particular the rebuild never fails. *)
Theorem main_finishes fs root ro :
  (exists fs' ws st, main fs root ro = Finished fs' ws st) <->
  exists_file fs (opf_path root) = true /\ exists_file fs (notes_path root) = true /\
  find_first "ol" (doc_at fs (notes_path root)) <> None /\
  get_content_files (doc_at fs (opf_path root)) <> None.
Proof.
  split.
  - intros (fs' & ws & st & M).
    destruct (exists_file fs (opf_path root)) eqn:O;
      [|destruct (main_exits_when fs root ro (or_introl O)) as [lg E]; congruence].
    destruct (exists_file fs (notes_path root)) eqn:N;
      [|destruct (main_exits_when fs root ro (or_intror N)) as [lg E]; congruence].
    split; [reflexivity|]. split; [reflexivity|].
    split; intros H.
    + rewrite (main_crashes_when fs root ro O N (or_introl H)) in M. discriminate M.
    + rewrite (main_crashes_when fs root ro O N (or_intror H)) in M. discriminate M.
  - intros (O & N & F & G). exact (main_finishes_when fs root ro O N F G).
Qed.

Lemma main_finishes_witness :
  exists_file x14_fs (opf_path "book") = true /\ exists_file x14_fs (notes_path "book") = true /\
  find_first "ol" (doc_at x14_fs (notes_path "book")) <> None /\
  get_content_files (doc_at x14_fs (opf_path "book")) <> None /\
  exists fs' ws st, main x14_fs "book" true = Finished fs' ws st.
Proof.
  assert (O : exists_file x14_fs (opf_path "book") = true) by (vm_compute; reflexivity).
  assert (N : exists_file x14_fs (notes_path "book") = true) by (vm_compute; reflexivity).
  assert (F : find_first "ol" (doc_at x14_fs (notes_path "book")) <> None) by (vm_compute; discriminate).
  assert (G : get_content_files (doc_at x14_fs (opf_path "book")) <> None) by (vm_compute; discriminate).
  split; [exact O|]. split; [exact N|]. split; [exact F|]. split; [exact G|].
  exact (proj2 (main_finishes x14_fs "book" true) (conj O (conj N (conj F G)))).
Defined.

(** X15: main raises an uncaught exception exactly when both files exist but
    the endnotes tree as read has no [ol] ([None.find_all] in get_notes;
    an unreadable endnotes.xhtml is such a case) or an [itemref] of the
    content file has no [idref] (KeyError). *)
Theorem main_crashes_iff fs root ro :
  main fs root ro = Crashed <->
  exists_file fs (opf_path root) = true /\ exists_file fs (notes_path root) = true /\
  (find_first "ol" (doc_at fs (notes_path root)) = None \/
   get_content_files (doc_at fs (opf_path root)) = None).
Proof.
  split.
  - intros M.
    destruct (exists_file fs (opf_path root)) eqn:O;
      [|destruct (main_exits_when fs root ro (or_introl O)) as [lg E]; congruence].
    destruct (exists_file fs (notes_path root)) eqn:N;
      [|destruct (main_exits_when fs root ro (or_intror N)) as [lg E]; congruence].
    split; [reflexivity|]. split; [reflexivity|].
    destruct (find_first "ol" (doc_at fs (notes_path root))) eqn:F; [|left; reflexivity].
    right. destruct (get_content_files (doc_at fs (opf_path root))) eqn:G; [|reflexivity].
    exfalso.
    assert (F' : find_first "ol" (doc_at fs (notes_path root)) <> None) by (rewrite F; discriminate).
    assert (G' : get_content_files (doc_at fs (opf_path root)) <> None) by (rewrite G; discriminate).
    destruct (main_finishes_when fs root ro O N F' G') as (fs' & ws & st & E). congruence.
  - intros (O & N & H). exact (main_crashes_when fs root ro O N H).
Qed.

Lemma main_crashes_iff_witness :
  exists_file x15_fs (opf_path "book") = true /\ exists_file x15_fs (notes_path "book") = true /\
  find_first "ol" (doc_at x15_fs (notes_path "book")) = None /\
  main x15_fs "book" false = Crashed.
Proof.
  assert (O : exists_file x15_fs (opf_path "book") = true) by (vm_compute; reflexivity).
  assert (N : exists_file x15_fs (notes_path "book") = true) by (vm_compute; reflexivity).
  assert (F : find_first "ol" (doc_at x15_fs (notes_path "book")) = None) by (vm_compute; reflexivity).
  split; [exact O|]. split; [exact N|]. split; [exact F|].
  exact (proj2 (main_crashes_iff x15_fs "book" false) (conj O (conj N (or_introl F)))).
Defined.



(** X17: get_content_files gives the [idref] of every [itemref] of the
    content file, in document order, and fails (KeyError) exactly when an
    [itemref] has none. *)
Theorem get_content_files_spec opf fl :
  get_content_files opf = Some fl <->
  Forall (fun n => lookup_attr (item_attrs n) "idref" <> None) (find_all (is_tag "itemref") opf) /\
  fl = map (fun n => get_attr (item_attrs n) "idref") (find_all (is_tag "itemref") opf).
Proof.
  unfold get_content_files. apply idrefs_spec. apply Forall_forall. intros n In_.
  unfold find_all in In_. apply in_flat_map in In_. destruct In_ as (y & _ & Hy).
  destruct (find_all_is_tag_node _ _ _ Hy) as (a & ch & ->). eauto.
Qed.

(** X18: the self-reference pass never adds or removes a Note. *)
Theorem endnotes_pass_keeps_count de st :
  List.length (process_endnotes_file de st).(notes) = List.length st.(notes).
Proof.
  unfold process_endnotes_file. generalize (seq 0 (List.length (notes st))) as l.
  intros l. revert st. induction l as [|i l IH]; intros st; [reflexivity|].
  cbn [fold_left]. rewrite IH. unfold endnote_at.
  destruct (nth_error (notes st) i) as [e|]; [|reflexivity].
  pose proof (proc_contents_R (endnotes_step de)
                (fun s s' => List.length s'.(notes) = List.length s.(notes))
                (fun s => eq_refl) (fun s1 s2 s3 h1 h2 => eq_trans h2 h1)
                (endnotes_step_length de) (contents e) st) as H.
  destruct (proc_contents _ _ st) as [cs st1]. cbn [snd] in H.
  cbn [set_notes notes]. rewrite length_update_nth. exact H.
Qed.

(** X19: when every spine entry is in the exclusion list, main processes no
    file and writes nothing. *)
Theorem main_all_excluded fs root ro fs' ws st fl :
  get_content_files (doc_at fs (opf_path root)) = Some fl ->
  Forall (fun f => mem_string f exclude_list = true) fl ->
  main fs root ro = Finished fs' ws st ->
  ws = [] /\ fs' = fs /\
  In "No files processed. Did you update manifest and order the spine?" st.(log).
Proof.
  intros Gc Ex M. unfold main in M. cbv zeta in M.
  destruct (negb (exists_file fs (opf_path root))); [discriminate M|].
  destruct (negb (exists_file fs (notes_path root))); [discriminate M|].
  destruct (gethtml fs (notes_path root)) as [ns m1].
  destruct (get_notes ns) as [en|]; [|discriminate M].
  unfold doc_at in Gc. destruct (gethtml fs (opf_path root)) as [opf m2]. cbn [fst] in Gc.
  rewrite Gc, (body_pass_all_excluded _ _ _ _ Ex) in M. cbn [processed Nat.eqb wfs writes wst] in M.
  injection M as <- <- <-. split; [reflexivity|]. split; [reflexivity|].
  cbn [print log]. apply in_or_app. right. left. reflexivity.
Qed.

Lemma main_all_excluded_witness :
  exists fs' ws st,
    get_content_files (doc_at c9_fs (opf_path "book")) = Some ["titlepage.xhtml"; "endnotes.xhtml"] /\
    Forall (fun f => mem_string f exclude_list = true) ["titlepage.xhtml"; "endnotes.xhtml"] /\
    main c9_fs "book" false = Finished fs' ws st /\
    ws = [] /\ fs' = c9_fs /\
    In "No files processed. Did you update manifest and order the spine?" st.(log).
Proof.
  assert (G : get_content_files (doc_at c9_fs (opf_path "book")) = Some ["titlepage.xhtml"; "endnotes.xhtml"])
    by (vm_compute; reflexivity).
  assert (E : Forall (fun f => mem_string f exclude_list = true) ["titlepage.xhtml"; "endnotes.xhtml"])
    by (repeat constructor).
  set (st := match main c9_fs "book" false with Finished _ _ st => st | _ => ex_state end).
  assert (M : main c9_fs "book" false = Finished c9_fs [] st) by (vm_compute; reflexivity).
  exists c9_fs, [], st. split; [exact G|]. split; [exact E|]. split; [exact M|].
  exact (main_all_excluded c9_fs "book" false c9_fs [] st _ G E M).
Defined.

(** X20: when content.opf exists but cannot be read, main reports it,
    reads an empty spine, processes no file and writes nothing (given an
    endnotes.xhtml with an [ol]). *)
Theorem main_unreadable_opf fs root ro :
  fs (opf_path root) = Some Unreadable ->
  find_first "ol" (doc_at fs (notes_path root)) <> None ->
  exists st, main fs root ro = Finished fs [] st /\
    In ("Could not open " ++ opf_path root)%string st.(log) /\
    In "No files processed. Did you update manifest and order the spine?" st.(log).
Proof.
  intros Ho F.
  assert (O : exists_file fs (opf_path root) = true) by (unfold exists_file; rewrite Ho; reflexivity).
  assert (N : exists_file fs (notes_path root) = true).
  { unfold doc_at, gethtml, read_file, exists_file in *.
    destruct (fs (notes_path root)) as [[|]|]; [exfalso; apply F; reflexivity|reflexivity|].
    exfalso; apply F; reflexivity. }
  assert (G2 : gethtml fs (opf_path root) = ([], [("Could not open " ++ opf_path root)%string]))
    by (unfold gethtml, read_file; rewrite Ho; reflexivity).
  unfold main. cbv zeta. rewrite O, N, G2. cbv beta iota delta [negb].
  unfold doc_at in F. destruct (gethtml fs (notes_path root)) as [nd m1]. cbn [fst] in F.
  unfold get_notes. destruct (find_first "ol" nd) as [ol|]; [|congruence]. cbv beta iota.
  change (get_content_files []) with (Some (@nil string)). cbv beta iota zeta.
  cbn [body_pass processed Nat.eqb wfs writes wst].
  eexists. split; [reflexivity|].
  match goal with |- context [print _ (process_endnotes_file ?de ?s)] =>
    destruct (process_endnotes_file_log de s) as [l E] end.
  cbn [print log]. rewrite E. cbn [log]. split.
  - apply in_or_app. left. apply in_or_app. left. apply in_or_app. right. left. reflexivity.
  - apply in_or_app. right. left. reflexivity.
Qed.

Lemma main_unreadable_opf_witness :
  x14_fs (opf_path "book") = Some Unreadable /\
  find_first "ol" (doc_at x14_fs (notes_path "book")) <> None /\
  exists st, main x14_fs "book" false = Finished x14_fs [] st /\
    In ("Could not open " ++ opf_path "book")%string st.(log) /\
    In "No files processed. Did you update manifest and order the spine?" st.(log).
Proof.
  assert (O : x14_fs (opf_path "book") = Some Unreadable) by (vm_compute; reflexivity).
  assert (F : find_first "ol" (doc_at x14_fs (notes_path "book")) <> None) by (vm_compute; discriminate).
  split; [exact O|]. split; [exact F|]. exact (main_unreadable_opf x14_fs "book" false O F).
Defined.
